(** * ERA5 with xarray and dask: the notebook's cells, embedded and verified

    The notebook [ecodatascience_using_xarray_dask.ipynb] is a sequence of
    cells.  Each cell that the specification talks about is embedded here as
    a Rocq function, named after the cell, over explicit state:

    - the acquisition cells (8 and 10) run over a [World]: the working
      directory, the S3 bucket, the log of completed transfers and what was
      printed;
    - the analysis cells (15, 17, 19-27, 33) run over the notebook's dataset
      variable [ds];
    - the location cell (32) works on Python floats, which are the kernel's
      binary64 floats, and so do the entries of the arrays.

    Calls into boto3, pandas, xarray and dask are given the semantics those
    libraries document, each in a module of its own. *)

From Stdlib Require Import Ascii String QArith Qabs Qpower Lqa Floats.
From stdpp Require Import gmap strings list.

Open Scope string_scope.
Set Warnings "-inexact-float".

(** ** A state-and-exception monad for notebook cells

    A Python statement either completes or raises; in both cases the effects
    it already had on the state stay. *)

Module Py.

Inductive exn : Type :=
| KeyError (what : string)
| ValueError (what : string)
| IndexError (what : string)
| InvalidIndexError (what : string)
| AttributeError (what : string)
| ClientError (what : string).

Inductive outcome (A : Type) : Type :=
| Ok (a : A)
| Raise (e : exn).
Arguments Ok {A} a.
Arguments Raise {A} e.

Definition M (S A : Type) : Type := S → outcome A * S.

Definition ret {S A} (a : A) : M S A := λ s, (Ok a, s).
Definition bind {S A B} (m : M S A) (k : A → M S B) : M S B :=
  λ s, match m s with
       | (Ok a, s') => k a s'
       | (Raise e, s') => (Raise e, s')
       end.
Definition modify {S} (f : S → S) : M S unit := λ s, (Ok tt, f s).

(** [for x in xs: body x] *)
Fixpoint for_each {S A} (xs : list A) (body : A → M S unit) : M S unit :=
  match xs with
  | [] => ret tt
  | x :: rest => bind (body x) (λ _, for_each rest body)
  end.

(** Lifting a pure fallible step. *)
Definition lift {S A} (r : outcome A) : M S A := λ s, (r, s).

End Py.

Notation "'let!' x ':=' m 'in' k" := (Py.bind m (λ x, k))
  (at level 10, x name, m at level 100, k at level 200, only parsing).
Notation "'run!' m 'in' k" := (Py.bind m (λ _, k))
  (at level 10, m at level 100, k at level 200, only parsing).

(** ** [str.format] with keyword arguments, and [date.strftime]

    The replacement fields of the notebook's patterns are plain names
    ([{year}]); the scanner below reads a pattern left to right as Python
    does: [{{] and [}}] are escaped braces, [{name}] is replaced by the
    keyword argument [name], and the substituted text is not scanned again.
    A lone [}] or an unterminated field is a [ValueError], an unknown name a
    [KeyError].  Conversions, format specs and attribute access ([!], [:],
    [.], [[]) do not occur in the notebook and are rejected. *)

Module Str.

Definition kwargs := list (string * string).

Fixpoint kw_lookup (name : string) (kw : kwargs) : option string :=
  match kw with
  | [] => None
  | (k, v) :: rest => if String.eqb k name then Some v else kw_lookup name rest
  end.

Definition unsupported_in_field (c : ascii) : bool :=
  (Ascii.eqb c "{" || Ascii.eqb c "!" || Ascii.eqb c ":" ||
   Ascii.eqb c "." || Ascii.eqb c "[")%char.

Definition prepend (c : ascii) (r : Py.outcome string) : Py.outcome string :=
  match r with
  | Py.Ok s => Py.Ok (String c s)
  | Py.Raise e => Py.Raise e
  end.

Definition splice (v : string) (r : Py.outcome string) : Py.outcome string :=
  match r with
  | Py.Ok s => Py.Ok (v ++ s)
  | Py.Raise e => Py.Raise e
  end.

(** [scan kw field s]: [field] is [None] outside a replacement field and
    [Some name] inside one, [name] being the part of the field name read so
    far. *)
Fixpoint scan (kw : kwargs) (field : option string) (s : string)
  : Py.outcome string :=
  match s with
  | EmptyString =>
      match field with
      | None => Py.Ok EmptyString
      | Some _ => Py.Raise (Py.ValueError "expected '}' before end of string")
      end
  | String c rest =>
      match field with
      | None =>
          if Ascii.eqb c "{" then
            match rest with
            | String "{" rest' => prepend "{" (scan kw None rest')
            | _ => scan kw (Some EmptyString) rest
            end
          else if Ascii.eqb c "}" then
            match rest with
            | String "}" rest' => prepend "}" (scan kw None rest')
            | _ => Py.Raise (Py.ValueError "Single '}' encountered in format string")
            end
          else prepend c (scan kw None rest)
      | Some name =>
          if Ascii.eqb c "}" then
            match kw_lookup name kw with
            | Some v => splice v (scan kw None rest)
            | None => Py.Raise (Py.KeyError name)
            end
          else if unsupported_in_field c then
            Py.Raise (Py.ValueError "unsupported replacement field")
          else scan kw (Some (name ++ String c EmptyString)) rest
      end
  end.

Definition format (pattern : string) (kw : kwargs) : Py.outcome string :=
  scan kw None pattern.

(** ['...%s...' % arg] for a pattern with a single [%s]. *)
Fixpoint percent_s (pattern arg : string) : string :=
  match pattern with
  | String "%" (String "s" rest) => arg ++ rest
  | String c rest => String c (percent_s rest arg)
  | EmptyString => EmptyString
  end.

End Str.

Module Datetime.

(** [datetime.date(year, month, day)] *)
Record date := Date { year : nat; month : nat; day : nat }.

Definition digit (n : nat) : ascii := ascii_of_nat (48 + n `mod` 10).

(** decimal digits of [n], most significant first, at least [width] of them *)
Fixpoint digits (fuel n width : nat) (acc : string) : string :=
  match fuel with
  | 0 => acc
  | S fuel' =>
      let acc' := String (digit n) acc in
      if (n <? 10)%nat && (width <=? 1)%nat then acc'
      else digits fuel' (n `div` 10) (width - 1) acc'
  end.

Definition decimal (width n : nat) : string :=
  digits (S n + width) n width EmptyString.

(** [%Y]: the year in decimal (four digits for the years 1000-9999);
    [%m]: the month as two digits. *)
Definition strftime_Y (d : date) : string := decimal 1 (year d).
Definition strftime_m (d : date) : string := decimal 2 (month d).

(** [date.strftime('%Y/%m/')] *)
Definition strftime_Y_m_slash (d : date) : string :=
  strftime_Y d ++ "/" ++ strftime_m d ++ "/".

End Datetime.

(** ** The world of the acquisition cells

    The working directory holds regular files, addressed by name; the object
    store maps (bucket, key) to the object's bytes.  [transfers] records every
    completed download as (bucket, key, local name), oldest first; [stdout]
    records the printed lines. *)

Record World := mkWorld {
  fs : gmap string string;
  objects : gmap (string * string) string;
  transfers : list (string * string * string);
  stdout : list string
}.

Module Os.
(** [os.path.isfile(path)] *)
Definition path_isfile (path : string) : Py.M World bool :=
  λ w, (Py.Ok (bool_decide (is_Some (fs w !! path))), w).
End Os.

Module Builtins.
(** [print(line)] *)
Definition print (line : string) : Py.M World unit :=
  Py.modify (λ w, mkWorld (fs w) (objects w) (transfers w) (stdout w ++ [line])).
End Builtins.

Module Boto3.
(** [client.download_file(bucket, key, filename)]: copies the object to the
    local file, replacing what was there; a missing object is a
    [ClientError] and leaves the working directory as it was. *)
Definition download_file (bucket key filename : string) : Py.M World unit :=
  λ w, match objects w !! (bucket, key) with
       | Some body =>
           (Py.Ok tt,
            mkWorld (<[filename := body]> (fs w)) (objects w)
                    (transfers w ++ [(bucket, key, filename)]) (stdout w))
       | None => (Py.Raise (Py.ClientError "404 Not Found"), w)
       end.
End Boto3.

Definition era5_bucket : string := "era5-pds".

(** ** Cell 8: the metadata file *)

Module Cell8.

Definition metadata_file : string := "main.nc".

Definition metadata_key (date : Datetime.date) : string :=
  Datetime.strftime_Y_m_slash date ++ metadata_file.

(** The cell goes on to open [main.nc] and print its header, which changes
    nothing in the world. *)
Definition cell8 (date : Datetime.date) : Py.M World unit :=
  Boto3.download_file era5_bucket (metadata_key date) metadata_file.

End Cell8.

(** ** Cell 10: the variables of interest *)

Module Cell10.

Definition var2 : string := "air_pressure_at_mean_sea_level".
Definition var1 : string := "air_temperature_at_2_metres".
Definition var_list : list string := [var1; var2].

Definition s3_data_ptrn : string := "{year}/{month}/data/{var}.nc".
Definition data_file_ptrn : string := "{year}{month}_{var}.nc".

Definition s3_data_key (year month var : string) : Py.outcome string :=
  Str.format s3_data_ptrn [("year", year); ("month", month); ("var", var)].

Definition data_file (year month var : string) : Py.outcome string :=
  Str.format data_file_ptrn [("year", year); ("month", month); ("var", var)].

(** The guarded download that ends the loop body. *)
Definition fetch (s3_data_key data_file : string) : Py.M World unit :=
  let! present := Os.path_isfile data_file in
  if negb present then
    run! Builtins.print (Str.percent_s "Downloading %s from S3..." s3_data_key) in
    Boto3.download_file era5_bucket s3_data_key data_file
  else Py.ret tt.

Definition body (date : Datetime.date) (var : string) : Py.M World unit :=
  let year := Datetime.strftime_Y date in
  let month := Datetime.strftime_m date in
  let! key := Py.lift (s3_data_key year month var) in
  let! file := Py.lift (data_file year month var) in
  fetch key file.

Definition cell10 (date : Datetime.date) : Py.M World unit :=
  Py.for_each var_list (body date).

End Cell10.

Definition date_2017_01 : Datetime.date := Datetime.Date 2017 1 1.

Definition bucket_2017_01 : gmap (string * string) string :=
  {[ ("era5-pds", "2017/01/main.nc") := "meta";
     ("era5-pds", "2017/01/data/air_temperature_at_2_metres.nc") := "t2m";
     ("era5-pds", "2017/01/data/air_pressure_at_mean_sea_level.nc") := "msl" ]}.

Definition fresh_world : World := mkWorld ∅ bucket_2017_01 [] [].


(** ** binary64

    Python's [float] and numpy's [float64] are IEEE 754 binary64 numbers, the
    kernel's primitive floats: [+], [-], [*] and [/] round to nearest, ties
    to even, and overflow to an infinity.  [value] reads a float as the
    rational it stands for; an infinity and a NaN stand for none. *)

Module Binary64.



(** [float(n)] for a count [n] *)
Definition of_nat (n : nat) : float := of_uint63 (Uint63.of_Z (Z.of_nat n)).



End Binary64.

(** ** Cell 32: the locations, in degrees east

    [lon] and [lat] are Python floats, that is binary64 numbers; the literals
    below are rounded to binary64 as Python rounds them.  The comparison with
    the integer [0] and the sum with the integer [360] are exact conversions
    of those integers followed by the float operation. *)

Module Cell32.

Record loc := Loc { name : string; lon : float; lat : float }.

Definition locs : list loc :=
  [ Loc "santa_barbara" (-119.6982) 34.4208;
    Loc "colorado_springs" (-104.8214) 38.8339;
    Loc "honolulu" (-157.835938) 21.290014;
    Loc "seattle" (-122.3321) 47.6062 ]%float.

(** the body of the loop: [if l['lon'] < 0: l['lon'] = 360 + l['lon']] *)
Definition degrees_east (l : loc) : loc :=
  if (lon l <? 0)%float then Loc (name l) (360 + lon l)%float (lat l) else l.

Definition cell32 (ls : list loc) : list loc := degrees_east <$> ls.

End Cell32.

(** ** pandas: label lookup on a coordinate index

    A coordinate index is the list of its labels in storage order.  Labels
    are compared as numbers, so they are kept as rationals (every finite
    float is one). *)

Module Pandas.

Definition Qltb (x y : Q) : bool := negb (Qle_bool y x).

Fixpoint count (f : Q → bool) (l : list Q) : nat :=
  match l with
  | [] => 0
  | x :: rest => (if f x then 1 else 0) + count f rest
  end.

Fixpoint is_monotonic_increasing (l : list Q) : bool :=
  match l with
  | x :: (y :: _) as rest => Qle_bool x y && is_monotonic_increasing rest
  | _ => true
  end.

Fixpoint is_monotonic_decreasing (l : list Q) : bool :=
  match l with
  | x :: (y :: _) as rest => Qle_bool y x && is_monotonic_decreasing rest
  | _ => true
  end.

Fixpoint is_unique (l : list Q) : bool :=
  match l with
  | [] => true
  | x :: rest => forallb (λ y, negb (Qeq_bool x y)) rest && is_unique rest
  end.

Inductive side := Left | Right.

Definition other (s : side) : side :=
  match s with Left => Right | Right => Left end.

(** [numpy.searchsorted(a, v, side)] on an ascending array: the insertion
    point, which is the number of elements before it. *)
Definition searchsorted (a : list Q) (v : Q) (s : side) : nat :=
  match s with
  | Left => count (λ x, Qltb x v) a
  | Right => count (λ x, Qle_bool x v) a
  end.

(** The direction pandas works with: increasing is tested first, so an index
    with fewer than two distinct labels counts as increasing. *)
Inductive direction := Increasing | Decreasing.

Definition monotonic (idx : list Q) : option direction :=
  if is_monotonic_increasing idx then Some Increasing
  else if is_monotonic_decreasing idx then Some Decreasing
  else None.

(** [Index._searchsorted_monotonic(label, side)]: a decreasing index is
    searched reversed, with the side and the result mirrored. *)
Definition searchsorted_monotonic (idx : list Q) (label : Q) (s : side)
  : option nat :=
  match monotonic idx with
  | Some Increasing => Some (searchsorted idx label s)
  | Some Decreasing =>
      Some (length idx - searchsorted (reverse idx) label (other s))
  | None => None
  end.

(** positions at which [label] occurs *)
Fixpoint positions (label : Q) (idx : list Q) (i : nat) : list nat :=
  match idx with
  | [] => []
  | x :: rest =>
      (if Qeq_bool x label then [i] else []) ++ positions label rest (S i)
  end.

Fixpoint contiguous (ps : list nat) : bool :=
  match ps with
  | p :: (q :: _) as rest => Nat.eqb q (S p) && contiguous rest
  | _ => true
  end.

(** Modelled from the spec: [Index.get_slice_bound(label, side)] is pandas
    code, outside the notebook; section 4.3 asks for inclusive bounds read
    in the grid's own order.  On a monotonic index the bound is the
    insertion point (where the label occurs, [get_loc] gives the same
    position).  On an index that is not monotonic only a label that occurs,
    in one run, has a bound; any other label is a [KeyError]. *)
Definition get_slice_bound (idx : list Q) (label : Q) (s : side)
  : Py.outcome nat :=
  match searchsorted_monotonic idx label s with
  | Some i => Py.Ok i
  | None =>
      match positions label idx 0 with
      | p :: ps =>
          if contiguous (p :: ps)
          then Py.Ok (match s with Left => p | Right => S (List.last ps p) end)
          else Py.Raise (Py.KeyError "non-unique label")
      | [] => Py.Raise (Py.KeyError "label not in index")
      end
  end.

(** Modelled from the spec: [Index.slice_indexer(start, stop)] is pandas
    code, outside the notebook.  It gives the positional slice [lo:hi] of
    the labels between the two bounds, [start] searched from the left and
    [stop] from the right. *)
Definition slice_indexer (idx : list Q) (start stop : Q)
  : Py.outcome (nat * nat) :=
  match get_slice_bound idx start Left with
  | Py.Ok lo =>
      match get_slice_bound idx stop Right with
      | Py.Ok hi => Py.Ok (lo, hi)
      | Py.Raise e => Py.Raise e
      end
  | Py.Raise e => Py.Raise e
  end.

(** Python's [xs[lo:hi]] for [0 <= lo], [0 <= hi]: empty when [hi <= lo]. *)
Definition py_slice {A} (lo hi : nat) (xs : list A) : list A :=
  take (hi - lo) (drop lo xs).

(** *** Nearest label

    [Index.get_loc(target, method='nearest')] goes through
    [get_indexer([target], method='nearest')]: the index must be unique and
    monotonic; the candidates are the position found by 'pad' and the one
    found by 'backfill' ([None] stands for pandas' -1), and the closer one
    wins. *)

Fixpoint find_exact (target : Q) (idx : list Q) (i : nat) : option nat :=
  match idx with
  | [] => None
  | x :: rest => if Qeq_bool x target then Some i else find_exact target rest (S i)
  end.

Definition pred_opt (n : nat) : option nat :=
  match n with 0 => None | S k => Some k end.

Definition below_len (idx : list Q) (n : nat) : option nat :=
  if (n <? length idx)%nat then Some n else None.

(** 'pad': the last position whose label does not lie beyond the target in
    the index's direction. *)
Definition pad (d : direction) (idx : list Q) (target : Q) : option nat :=
  match d with
  | Increasing => pred_opt (searchsorted idx target Right)
  | Decreasing =>
      match find_exact target idx 0 with
      | Some p => Some p
      | None =>
          pred_opt (length idx - searchsorted (reverse idx) target Right)
      end
  end.

(** 'backfill': the first position whose label is not before the target. *)
Definition backfill (d : direction) (idx : list Q) (target : Q) : option nat :=
  match d with
  | Increasing => below_len idx (searchsorted idx target Left)
  | Decreasing =>
      match find_exact target idx 0 with
      | Some p => Some p
      | None =>
          below_len idx (length idx - searchsorted (reverse idx) target Left)
      end
  end.

(** [values[i]] with numpy's wrap-around for -1 *)
Definition value_at (idx : list Q) (i : option nat) : option Q :=
  match i with
  | Some k => idx !! k
  | None => last idx
  end.

Definition distance (x target : Q) : Q := Qabs (x - target).

(** Modelled from the spec: [Index.get_loc(target, method='nearest')] is
    pandas code, outside the notebook; section 4.5 asks for the nearest
    available label, not an interpolated one.  Of the 'pad' and 'backfill'
    candidates the closer wins; at equal distance an increasing index takes
    the 'backfill' one and a decreasing index the 'pad' one. *)
Definition get_loc_nearest (idx : list Q) (target : Q) : Py.outcome nat :=
  if negb (is_unique idx) then
    Py.Raise (Py.InvalidIndexError
                "Reindexing only valid with uniquely valued Index objects")
  else
    match monotonic idx with
    | None =>
        Py.Raise (Py.ValueError "index must be monotonic increasing or decreasing")
    | Some d =>
        let left := pad d idx target in
        let right := backfill d idx target in
        match value_at idx left, value_at idx right with
        | Some lv, Some rv =>
            let ld := distance lv target in
            let rd := distance rv target in
            let closer :=
              match d with
              | Increasing => Qltb ld rd
              | Decreasing => Qle_bool ld rd
              end in
            let pick :=
              if closer || bool_decide (right = None) then left else right in
            match pick with
            | Some i => Py.Ok i
            | None => Py.Raise (Py.KeyError "label not in index")
            end
        | _, _ => Py.Raise (Py.IndexError "index is out of bounds")
        end
    end.

End Pandas.

(** ** dask: task graphs

    The arrays of the notebook are dask arrays: nothing is read until a
    graph is computed, and what is read then is what the files hold then.
    A graph is therefore a function of the [Store], the decoded contents of
    the data files by file name. *)

Module Dask.

Definition Store : Type := string → nat → nat → nat → float.

Definition Graph (A : Type) : Type := Store → A.

(** Modelled from the spec: [x.compute()] is dask code, outside the
    notebook; it is the "materialize" of section 5: run the graph against
    the files as they are now. *)
Definition compute {A} (g : Graph A) (now : Store) : A := g now.

(** Modelled from the spec: [x.persist()] is dask code, outside the
    notebook; sections 5 and 9 describe it as pinning the computed values in
    memory for every later reader.  Run the graph now and hand back a graph
    that holds the result. *)
Definition persist {A} (g : Graph A) (now : Store) : Graph A :=
  let held := g now in λ _, held.

(** reading one variable of one file *)
Definition from_file (file : string) : Graph (nat → nat → nat → float) :=
  λ st, st file.

End Dask.

(** ** xarray: datasets on a (time0, lat, lon) grid

    An array is its index function, entries addressed by position along
    (time0, lat, lon); its shape is the length of the coordinates it comes
    with.  Entries are binary64 floats ([float64], the type of the literals
    [100.0] and [273.15] of cell 17), coordinates are the rationals their
    labels stand for. *)

Module Xarray.

Definition Cube : Type := nat → nat → nat → float.

Record Var := mkVar {
  values : Dask.Graph Cube;
  attrs : gmap string string
}.

Record Dataset := mkDataset {
  time0 : list Q;
  lat : list Q;
  lon : list Q;
  data_vars : gmap string Var
}.

Record DataArray := mkDataArray {
  da_name : string;
  da_time0 : list Q;
  da_lat : list Q;
  da_lon : list Q;
  da_variable : Var
}.

(** [ds[name]] and [ds.name] *)
Definition getitem (ds : Dataset) (name : string) : Py.outcome DataArray :=
  match data_vars ds !! name with
  | Some v => Py.Ok (mkDataArray name (time0 ds) (lat ds) (lon ds) v)
  | None => Py.Raise (Py.KeyError name)
  end.

Definition getattr (name : string) : Py.M Dataset DataArray :=
  λ ds, match data_vars ds !! name with
        | Some v => (Py.Ok (mkDataArray name (time0 ds) (lat ds) (lon ds) v), ds)
        | None => (Py.Raise (Py.AttributeError name), ds)
        end.

(** [ds[name] = da] *)
Definition setitem (name : string) (da : DataArray) : Py.M Dataset unit :=
  Py.modify (λ ds, mkDataset (time0 ds) (lat ds) (lon ds)
                             (<[name := da_variable da]> (data_vars ds))).

(** [ds.name.attrs[key] = val] *)
Definition set_attr (name key val : string) : Py.M Dataset unit :=
  λ ds, match data_vars ds !! name with
        | Some v =>
            (Py.Ok tt,
             mkDataset (time0 ds) (lat ds) (lon ds)
               (<[name := mkVar (values v) (<[key := val]> (attrs v))]>
                  (data_vars ds)))
        | None => (Py.Raise (Py.AttributeError name), ds)
        end.

(** Arithmetic with a scalar acts on every entry, in binary64; the result
    carries no attributes. *)
Definition map_entries (f : float → float) (da : DataArray) : DataArray :=
  mkDataArray (da_name da) (da_time0 da) (da_lat da) (da_lon da)
    (mkVar (λ st t i j, f (values (da_variable da) st t i j)) ∅).

(** [da / c] *)
Definition truediv (da : DataArray) (c : float) : DataArray :=
  map_entries (λ x, (x / c)%float) da.

(** [da - c] *)
Definition sub (da : DataArray) (c : float) : DataArray :=
  map_entries (λ x, (x - c)%float) da.

(** *** Selection by label *)

Definition window (ilo jlo : nat) (v : Var) : Var :=
  mkVar (λ st t i j, values v st t (ilo + i) (jlo + j)) (attrs v).

(** Modelled from the spec:
    [ds.sel(lat=slice(lat_start, lat_stop), lon=slice(lon_start, lon_stop))]
    is xarray code, outside the notebook; section 4.3 describes it.  Each
    slice is turned into positions by the coordinate's index, the
    coordinates are cut to those positions and every variable with them. *)
Definition sel_slices (ds : Dataset) (lat_start lat_stop lon_start lon_stop : Q)
  : Py.outcome Dataset :=
  match Pandas.slice_indexer (lat ds) lat_start lat_stop with
  | Py.Ok (ilo, ihi) =>
      match Pandas.slice_indexer (lon ds) lon_start lon_stop with
      | Py.Ok (jlo, jhi) =>
          Py.Ok (mkDataset (time0 ds)
                   (Pandas.py_slice ilo ihi (lat ds))
                   (Pandas.py_slice jlo jhi (lon ds))
                   (window ilo jlo <$> data_vars ds))
      | Py.Raise e => Py.Raise e
      end
  | Py.Raise e => Py.Raise e
  end.

(** What is left of a dataset at one grid cell: the coordinates of the cell
    and, for every variable, its entries along time0. *)
Record PointDataset := mkPointDataset {
  pt_time0 : list Q;
  pt_lon : Q;
  pt_lat : Q;
  pt_vars : gmap string (Dask.Graph (nat → float))
}.

Definition at_cell (i j : nat) (v : Var) : Dask.Graph (nat → float) :=
  λ st t, values v st t i j.

(** Modelled from the spec: [ds.sel(lon=lon, lat=lat, method='nearest')] is
    xarray code, outside the notebook; section 4.5 describes it.  Each label
    is looked up on its own axis, and what is returned is the stored series
    of the cell found. *)
Definition sel_nearest (ds : Dataset) (lon_label lat_label : Q)
  : Py.outcome PointDataset :=
  match Pandas.get_loc_nearest (lon ds) lon_label with
  | Py.Ok j =>
      match Pandas.get_loc_nearest (lat ds) lat_label with
      | Py.Ok i =>
          Py.Ok (mkPointDataset (time0 ds)
                   (default 0%Q (lon ds !! j)) (default 0%Q (lat ds !! i))
                   (at_cell i j <$> data_vars ds))
      | Py.Raise e => Py.Raise e
      end
  | Py.Raise e => Py.Raise e
  end.

(** *** Reduction along time0 *)

(** the entries that count, NaN being skipped *)
Fixpoint count_first (n : nat) (f : nat → float) : nat :=
  match n with
  | 0 => 0
  | S k => (count_first k f + if is_nan (f k) then 0 else 1)%nat
  end.

(** their sum, first to last *)
Fixpoint sum_first (n : nat) (f : nat → float) : float :=
  match n with
  | 0 => 0%float
  | S k => (sum_first k f + if is_nan (f k) then 0 else f k)%float
  end.

(** A field over (lat, lon). *)
Record Field := mkField {
  f_lat : list Q;
  f_lon : list Q;
  f_values : Dask.Graph (nat → nat → float)
}.

(** Modelled from the spec: [da.mean(dim='time0')] is xarray code, outside
    the notebook; section 4.4 describes it and leaves the treatment of NaN
    to the library, whose default for floats is to skip them.  The sum of
    the entries along time0 that are not NaN, over their number, for every
    (lat, lon); where nothing is left to average the quotient [0 / 0] is
    NaN. *)
Definition mean_time0 (da : DataArray) : Field :=
  let n := length (da_time0 da) in
  mkField (da_lat da) (da_lon da)
    (λ st i j,
       let series := λ t, values (da_variable da) st t i j in
       (sum_first n series / Binary64.of_nat (count_first n series))%float).

(** Modelled from the spec: [da.persist()] is xarray code, outside the
    notebook (see [Dask.persist]); coordinates, name and attributes are
    kept. *)
Definition persist (da : DataArray) (now : Dask.Store) : DataArray :=
  mkDataArray (da_name da) (da_time0 da) (da_lat da) (da_lon da)
    (mkVar (Dask.persist (values (da_variable da)) now)
                (attrs (da_variable da))).

(** [da.to_dataset()] *)
Definition to_dataset (da : DataArray) : Dataset :=
  mkDataset (da_time0 da) (da_lat da) (da_lon da)
            {[ da_name da := da_variable da ]}.

End Xarray.

(** ** Cell 15: the Western US *)

Module Cell15.

(** [ds = ds.sel(lat=slice(50,30), lon=slice(360-140,360-105))] *)
Definition cell15 (ds : Xarray.Dataset) : Py.outcome Xarray.Dataset :=
  Xarray.sel_slices ds 50 30 (360 - 140) (360 - 105).

End Cell15.

(** ** Cell 17: units *)

Module Cell17.

Definition msl : string := "air_pressure_at_mean_sea_level".
Definition t2m : string := "air_temperature_at_2_metres".

(** The cell rebinds the two variables of the one dataset [ds]; whatever
    runs afterwards sees the converted entries. *)
Definition cell17 : Py.M Xarray.Dataset unit :=
  let! p := Xarray.getattr msl in
  run! Xarray.setitem msl (Xarray.truediv p 100.0) in
  run! Xarray.set_attr msl "units" "hPa" in
  let! t := Xarray.getattr t2m in
  run! Xarray.setitem t2m (Xarray.sub t 273.15) in
  Xarray.set_attr t2m "units" "C".

(** The notebook never converts back; these are the algebraic inverses of
    the two maps, computed as the cell computes, on binary64: [h * 100.0]
    and [c + 273.15]. *)
Definition from_hPa (h : float) : float := (h * 100.0)%float.
Definition from_celsius (c : float) : float := (c + 273.15)%float.

End Cell17.

(** ** Cells 19 to 27: the mean over time, before and after [persist] *)

Module Cell19.

(** cell 19: [da_temp_mean = ds['air_temperature_at_2_metres'].mean(dim='time0')] *)
Definition cell19 (ds : Xarray.Dataset) : Py.outcome Xarray.Field :=
  match Xarray.getitem ds Cell17.t2m with
  | Py.Ok da => Py.Ok (Xarray.mean_time0 da)
  | Py.Raise e => Py.Raise e
  end.

(** cell 21: [da_temp_mean = da_temp_mean.compute()] *)
Definition cell21 (da_temp_mean : Xarray.Field) (now : Dask.Store)
  : nat → nat → float :=
  Dask.compute (Xarray.f_values da_temp_mean) now.

(** cell 25: [air_temp = ds['air_temperature_at_2_metres'].persist()] *)
Definition cell25 (ds : Xarray.Dataset) (now : Dask.Store)
  : Py.outcome Xarray.DataArray :=
  match Xarray.getitem ds Cell17.t2m with
  | Py.Ok da => Py.Ok (Xarray.persist da now)
  | Py.Raise e => Py.Raise e
  end.

(** cell 27: [temp_mean = air_temp.mean(dim='time0').compute()] *)
Definition cell27 (air_temp : Xarray.DataArray) (now : Dask.Store)
  : nat → nat → float :=
  Dask.compute (Xarray.f_values (Xarray.mean_time0 air_temp)) now.

End Cell19.

(** ** Cell 33: the time series at a location *)

Module Cell33.

(** [air_temp_ds = air_temp.to_dataset()] and, for one location,
    [ds2 = air_temp_ds.sel(lon=lon, lat=lat, method='nearest')] *)
Definition select (air_temp : Xarray.DataArray) (lon lat : Q)
  : Py.outcome Xarray.PointDataset :=
  Xarray.sel_nearest (Xarray.to_dataset air_temp) lon lat.

End Cell33.

(** ** A small grid to run the cells on

    Five latitudes stored north to south and five longitudes stored west to
    east, three time steps; the entries of the two files are made up. *)

Definition example_store : Dask.Store :=
  λ file t i j,
    if String.eqb file "201701_air_temperature_at_2_metres.nc"
    then (250 + Binary64.of_nat (10 * i + j) + 0.5 * Binary64.of_nat t)%float
    else (101325 + Binary64.of_nat (100 * t + 10 * i + j))%float.

Definition example_ds : Xarray.Dataset :=
  Xarray.mkDataset
    [0; 1; 2]%Q
    [(201 # 4); 50; 40; 30; (119 # 4)]%Q
    [(879 # 4); 220; 230; 255; (1021 # 4)]%Q
    {[ "air_temperature_at_2_metres" :=
         Xarray.mkVar (Dask.from_file "201701_air_temperature_at_2_metres.nc")
                      {[ "units" := "K" ]};
       "air_pressure_at_mean_sea_level" :=
         Xarray.mkVar (Dask.from_file "201701_air_pressure_at_mean_sea_level.nc")
                      {[ "units" := "Pa" ]} ]}.

(** the entry of a named variable, if the dataset has the variable *)
Definition entry (ds : Xarray.Dataset) (name : string)
  (st : Dask.Store) (t i j : nat) : option float :=
  (λ v, Xarray.values v st t i j) <$> Xarray.data_vars ds !! name.

Definition units_of (ds : Xarray.Dataset) (name : string) : option string :=
  Xarray.data_vars ds !! name ≫= λ v, Xarray.attrs v !! "units".

(** ** Worlds and datasets the statements below speak of *)

(** the world after the guarded fetch has downloaded [key] to [path] *)
Definition after_download (key path : string) (w : World) (body : string)
  : World :=
  mkWorld (<[path := body]> (fs w)) (objects w)
          (transfers w ++ [(era5_bucket, key, path)])
          (stdout w ++ [Str.percent_s "Downloading %s from S3..." key]).

(** the fetch step called twice in a row *)
Definition fetch_twice (key path : string) : Py.M World unit :=
  run! Cell10.fetch key path in Cell10.fetch key path.

(** the world after cell 8 has run *)
Definition after_metadata (date : Datetime.date) (w : World) (body : string)
  : World :=
  mkWorld (<[Cell8.metadata_file := body]> (fs w)) (objects w)
          (transfers w
             ++ [(era5_bucket, Cell8.metadata_key date, Cell8.metadata_file)])
          (stdout w).

(** a working directory that already holds an old [main.nc] *)
Definition stale_world : World :=
  mkWorld {[ "main.nc" := "stale" ]} bucket_2017_01 [] [].

Definition santa_barbara : Cell32.loc :=
  Cell32.Loc "santa_barbara" (-119.6982) 34.4208.

(** the two variables after cell 17, and the dataset that holds them *)
Definition hPa_var (pv : Xarray.Var) : Xarray.Var :=
  Xarray.mkVar (λ st t i j, (Xarray.values pv st t i j / 100.0)%float)
               {[ "units" := "hPa" ]}.

Definition celsius_var (tv : Xarray.Var) : Xarray.Var :=
  Xarray.mkVar (λ st t i j, (Xarray.values tv st t i j - 273.15)%float)
               {[ "units" := "C" ]}.

Definition converted (ds : Xarray.Dataset) (pv tv : Xarray.Var)
  : Xarray.Dataset :=
  Xarray.mkDataset (Xarray.time0 ds) (Xarray.lat ds) (Xarray.lon ds)
    (<[Cell17.t2m := celsius_var tv]>
       (<[Cell17.msl := hPa_var pv]> (Xarray.data_vars ds))).

Definition example_msl : Xarray.Var :=
  Xarray.mkVar (Dask.from_file "201701_air_pressure_at_mean_sea_level.nc")
               {[ "units" := "Pa" ]}.

Definition example_t2m : Xarray.Var :=
  Xarray.mkVar (Dask.from_file "201701_air_temperature_at_2_metres.nc")
               {[ "units" := "K" ]}.



(** ** Order of a coordinate, as statements use it *)

(** [sorted_by R l]: every label is [R]-related to every later one *)
Fixpoint sorted_by (R : Q → Q → Prop) (l : list Q) : Prop :=
  match l with
  | [] => True
  | x :: rest => Forall (R x) rest ∧ sorted_by R rest
  end.

(** [falls f l]: once [f] fails on a label it fails on all later ones *)
Fixpoint falls (f : Q → bool) (l : list Q) : Prop :=
  match l with
  | [] => True
  | x :: rest => (f x = false → Pandas.count f rest = 0) ∧ falls f rest
  end.

(** The direction pandas finds in the coordinate. *)
Definition ascending (idx : list Q) : Prop :=
  Pandas.monotonic idx = Some Pandas.Increasing.
Definition descending (idx : list Q) : Prop :=
  Pandas.monotonic idx = Some Pandas.Decreasing.

(** [start] and [stop] run against the direction [d]. *)
Definition against (d : Pandas.direction) (start stop : Q) : Prop :=
  match d with
  | Pandas.Increasing => (stop < start)%Q
  | Pandas.Decreasing => (start < stop)%Q
  end.

Definition inside (lo hi x : Q) : Prop := (lo <= x)%Q ∧ (x <= hi)%Q.

(** position [i] holds a label of [idx] that no other label beats in
    closeness to [t] *)
Definition nearest_at (idx : list Q) (t : Q) (i : nat) : Prop :=
  ∃ xi, idx !! i = Some xi
        ∧ ∀ a x, idx !! a = Some x →
                 (Pandas.distance xi t <= Pandas.distance x t)%Q.

(** A grid axis: distinct labels, stored in one direction, at least one. *)
Definition grid_axis (idx : list Q) : Prop :=
  Pandas.is_unique idx = true ∧ is_Some (Pandas.monotonic idx) ∧ idx ≠ [].

Definition example_air_temp : Xarray.DataArray :=
  Xarray.mkDataArray "air_temperature_at_2_metres"
    (Xarray.time0 example_ds) (Xarray.lat example_ds) (Xarray.lon example_ds)
    example_t2m.

(** ** The loop of cell 10, for any list of variables

    [var_list] is the line of the cell a user edits; the loop itself is the
    same for every list. *)

(** the key and the local name the loop body formats for [var] *)
Definition key_for (date : Datetime.date) (var : string) : string :=
  Datetime.strftime_Y date ++ "/" ++ Datetime.strftime_m date
    ++ "/data/" ++ var ++ ".nc".

Definition file_for (date : Datetime.date) (var : string) : string :=
  Datetime.strftime_Y date ++ Datetime.strftime_m date ++ "_" ++ var ++ ".nc".

Definition transfer_for (date : Datetime.date) (var : string)
  : string * string * string :=
  (era5_bucket, key_for date var, file_for date var).

Definition fetch_loop (date : Datetime.date) (vars : list string)
  : Py.M World unit :=
  Py.for_each vars (Cell10.body date).

(** the variables of [vars] whose local file is not there in [w] *)
Definition to_fetch (date : Datetime.date) (w : World) (vars : list string)
  : list string :=
  List.filter (λ v, bool_decide (fs w !! file_for date v = None)) vars.

(** a date whose year has four digits, as [datetime.date] prints them *)
Definition four_digit_date (d : Datetime.date) : Prop :=
  (1000 <= Z.of_nat (Datetime.year d) <= 9999)%Z
  ∧ (1 <= Z.of_nat (Datetime.month d) <= 12)%Z.

(** reading back the digits of a decimal string *)
Fixpoint read_decimal (s : string) (acc : nat) : nat :=
  match s with
  | EmptyString => acc
  | String c rest => read_decimal rest (10 * acc + (nat_of_ascii c - 48))
  end.

(** a bucket that lacks the pressure object of January 2017 *)
Definition bucket_without_pressure : gmap (string * string) string :=
  {[ ("era5-pds", "2017/01/main.nc") := "meta";
     ("era5-pds", "2017/01/data/air_temperature_at_2_metres.nc") := "t2m" ]}.

Definition world_without_pressure : World :=
  mkWorld ∅ bucket_without_pressure [] [].

(** [n], printed with at least [pad] digits, has [width] characters and
    reads back as [n] *)
Definition prints_back (pad width n : nat) : bool :=
  (String.length (Datetime.decimal pad n) =? width)%nat
  && (read_decimal (Datetime.decimal pad n) 0 =? n)%nat.

(** ** The dataset after cell 15, for the statements about rerunning it *)

Definition example_boxed : Xarray.Dataset :=
  match Cell15.cell15 example_ds with
  | Py.Ok ds' => ds'
  | Py.Raise _ => example_ds
  end.



(** the dataset cell 17 leaves when it stops at the temperature *)
Definition half_converted (ds : Xarray.Dataset) (pv : Xarray.Var)
  : Xarray.Dataset :=
  Xarray.mkDataset (Xarray.time0 ds) (Xarray.lat ds) (Xarray.lon ds)
    (<[Cell17.msl := hPa_var pv]> (Xarray.data_vars ds)).

(** ** Cell 12: which files are opened

    [xr.open_mfdataset(filename_pattern, ...)] opens the files of the
    working directory that [glob] matches against the pattern.  What is
    embedded is that choice of files; reading and combining them is left to
    xarray. *)

Module Glob.

Definition magic (c : ascii) : bool :=
  (Ascii.eqb c "*" || Ascii.eqb c "?" || Ascii.eqb c "[")%char.

Fixpoint has_magic (s : string) : bool :=
  match s with
  | EmptyString => false
  | String c rest => magic c || has_magic rest
  end.

Fixpoint has_class (s : string) : bool :=
  match s with
  | EmptyString => false
  | String c rest => Ascii.eqb c "[" || has_class rest
  end.

(** a name that starts with a dot *)
Definition ishidden (s : string) : bool :=
  match s with
  | String c _ => Ascii.eqb c "."
  | EmptyString => false
  end.

(** [fnmatch.fnmatchcase(name, pat)] for a pattern of literal characters,
    [*] (any run of characters) and [?] (any one character) *)
Fixpoint fnmatch (pat name : string) {struct pat} : bool :=
  match pat with
  | EmptyString =>
      match name with EmptyString => true | String _ _ => false end
  | String c pat' =>
      if Ascii.eqb c "*" then
        (fix star (n : string) : bool :=
           fnmatch pat' n
           || match n with
              | EmptyString => false
              | String _ n' => star n'
              end) name
      else
        match name with
        | EmptyString => false
        | String d name' =>
            (Ascii.eqb c "?" || Ascii.eqb c d) && fnmatch pat' name'
        end
  end.

(** [glob.glob(pattern)] in a directory holding [names], for a pattern
    without a directory part.  A pattern without magic names itself; one
    with magic is matched against the names, hidden names being skipped
    unless the pattern is hidden too.  Character classes are not embedded:
    a pattern with [[] has no result here. *)
Definition glob (pattern : string) (names : gset string)
  : option (gset string) :=
  if has_class pattern then None
  else if negb (has_magic pattern) then
    Some (if bool_decide (pattern ∈ names) then {[ pattern ]} else ∅)
  else
    Some (filter (λ n, (ishidden pattern || negb (ishidden n))
                       && fnmatch pattern n = true) names).

End Glob.

Module Cell12.

Definition file_pattern : string := "{year}{month}*.nc".

Definition filename_pattern (year month : string) : Py.outcome string :=
  Str.format file_pattern [("year", year); ("month", month)].

(** the files [open_mfdataset] is handed, for the year and month cell 10
    left behind *)
Definition files (date : Datetime.date) (w : World) : option (gset string) :=
  match filename_pattern (Datetime.strftime_Y date) (Datetime.strftime_m date)
  with
  | Py.Ok pattern => Glob.glob pattern (dom (fs w))
  | Py.Raise _ => None
  end.

End Cell12.

(** a working directory with this month's files, last month's, and one of a
    variable that is no longer in [var_list] *)
Definition crowded_world : World :=
  mkWorld {[ "main.nc" := "meta";
             "201701_air_temperature_at_2_metres.nc" := "t2m";
             "201701_precipitation_amount_1hour_Accumulation.nc" := "old";
             "201612_air_temperature_at_2_metres.nc" := "dec" ]}
          bucket_2017_01 [] [].

(** a dataset reduced to the single latitude 40 *)
Definition one_latitude_ds : Xarray.Dataset :=
  Xarray.mkDataset (Xarray.time0 example_ds) [40]%Q (Xarray.lon example_ds)
    (Xarray.data_vars example_ds).
Example strftime_2017_01 :
  Datetime.strftime_Y_m_slash (Datetime.Date 2017 1 1) = "2017/01/".
Proof. reflexivity. Qed.

Example format_escapes :
  Str.format "{{{a}}}-{b}" [("a", "x{b}"); ("b", "y")] = Py.Ok "{x{b}}-y".
Proof. reflexivity. Qed.

Example format_missing :
  Str.format "{a}{c}" [("a", "x")] = Py.Raise (Py.KeyError "c").
Proof. reflexivity. Qed.

Example cell10_fresh :
  let '(r, w) := Cell10.cell10 date_2017_01 fresh_world in
  r = Py.Ok tt ∧
  transfers w =
    [("era5-pds", "2017/01/data/air_temperature_at_2_metres.nc",
      "201701_air_temperature_at_2_metres.nc");
     ("era5-pds", "2017/01/data/air_pressure_at_mean_sea_level.nc",
      "201701_air_pressure_at_mean_sea_level.nc")] ∧
  stdout w =
    ["Downloading 2017/01/data/air_temperature_at_2_metres.nc from S3...";
     "Downloading 2017/01/data/air_pressure_at_mean_sea_level.nc from S3..."] ∧
  fs w !! "201701_air_temperature_at_2_metres.nc" = Some "t2m".
Proof. vm_compute. repeat split. Qed.

(** * Acquisition: object keys, the guarded fetch, the metadata file *)

Section Keys.

Variables year month var : string.

Lemma s3_data_key_eq :
  Cell10.s3_data_key year month var
  = Py.Ok (year ++ "/" ++ month ++ "/data/" ++ var ++ ".nc").
Proof. reflexivity. Qed.

Lemma data_file_eq :
  Cell10.data_file year month var
  = Py.Ok (year ++ month ++ "_" ++ var ++ ".nc").
Proof. reflexivity. Qed.

End Keys.

(** C8.  For every year, month and variable name, given as the strings the
    loop body formats, the remote object key is exactly
    [{year}/{month}/data/{variable}.nc] and the local file name is exactly
    [{year}{month}_{variable}.nc]; formatting never fails, whatever the three
    strings contain. *)
Theorem key_and_file_name (year month var : string) :
  Cell10.s3_data_key year month var
  = Py.Ok (year ++ "/" ++ month ++ "/data/" ++ var ++ ".nc")
  ∧ Cell10.data_file year month var
    = Py.Ok (year ++ month ++ "_" ++ var ++ ".nc").
Proof. split; [apply s3_data_key_eq | apply data_file_eq]. Qed.

Example key_with_braces :
  Cell10.s3_data_key "2017" "01" "{var}" = Py.Ok "2017/01/data/{var}.nc".
Proof. reflexivity. Qed.

Lemma body_is_fetch (date : Datetime.date) (var : string) (w : World) :
  Cell10.body date var w
  = Cell10.fetch
      (Datetime.strftime_Y date ++ "/" ++ Datetime.strftime_m date
         ++ "/data/" ++ var ++ ".nc")
      (Datetime.strftime_Y date ++ Datetime.strftime_m date
         ++ "_" ++ var ++ ".nc") w.
Proof. reflexivity. Qed.

Section Fetch.

Variables key path : string.
Variable w : World.

Lemma isfile_present (c : string) :
  fs w !! path = Some c → Os.path_isfile path w = (Py.Ok true, w).
Proof.
  intros Hc. unfold Os.path_isfile. rewrite Hc.
  rewrite bool_decide_eq_true_2; [done | by eexists].
Qed.

Lemma isfile_absent :
  fs w !! path = None → Os.path_isfile path w = (Py.Ok false, w).
Proof.
  intros Hn. unfold Os.path_isfile. rewrite Hn.
  rewrite bool_decide_eq_false_2; [done | by intros [? ?]].
Qed.

(** A file that is there is left alone: no request, no print, same world. *)
Lemma fetch_present (c : string) :
  fs w !! path = Some c → Cell10.fetch key path w = (Py.Ok tt, w).
Proof.
  intros Hc. unfold Cell10.fetch, Py.bind. by rewrite (isfile_present c Hc).
Qed.

Lemma fetch_absent (body : string) :
  fs w !! path = None →
  objects w !! (era5_bucket, key) = Some body →
  Cell10.fetch key path w = (Py.Ok tt, after_download key path w body).
Proof.
  intros Hn Hobj. unfold Cell10.fetch, Py.bind.
  rewrite (isfile_absent Hn). cbn.
  unfold Boto3.download_file. cbn. by rewrite Hobj.
Qed.

Lemma fetch_unavailable :
  fs w !! path = None →
  objects w !! (era5_bucket, key) = None →
  ∃ w', Cell10.fetch key path w = (Py.Raise (Py.ClientError "404 Not Found"), w')
        ∧ fs w' = fs w ∧ transfers w' = transfers w.
Proof.
  intros Hn Hobj. unfold Cell10.fetch, Py.bind.
  rewrite (isfile_absent Hn). cbn.
  unfold Boto3.download_file. cbn. rewrite Hobj. by eexists.
Qed.

End Fetch.

(** Whenever a fetch completes, the file is there afterwards. *)
Lemma fetch_leaves_file (key path : string) (w w' : World) :
  Cell10.fetch key path w = (Py.Ok tt, w') → is_Some (fs w' !! path).
Proof.
  intros Hrun.
  destruct (fs w !! path) as [c|] eqn:Hp.
  - rewrite (fetch_present key path w c Hp) in Hrun.
    injection Hrun as <-. by eexists.
  - destruct (objects w !! (era5_bucket, key)) as [body|] eqn:Hobj.
    + rewrite (fetch_absent key path w body Hp Hobj) in Hrun.
      injection Hrun as <-. cbn. rewrite lookup_insert_eq. by eexists.
    + destruct (fetch_unavailable key path w Hp Hobj) as (w'' & Hr & _).
      rewrite Hr in Hrun. discriminate.
Qed.

(** C1.  (a) If the local file exists, the fetch makes no transfer and
    leaves the world, the file included, as it was.  (b) Otherwise, the
    object being in the bucket, it copies the object to the local path, one
    transfer, and a second call is a no-op, so that the two calls together
    make exactly one transfer.  (c) In general a fetch that follows a
    completed fetch with the same key and path changes nothing. *)
Theorem fetch_idempotent (key path : string) (w : World) :
  (∀ c, fs w !! path = Some c → Cell10.fetch key path w = (Py.Ok tt, w))
  ∧ (∀ body,
       fs w !! path = None →
       objects w !! (era5_bucket, key) = Some body →
       ∃ w1,
         Cell10.fetch key path w = (Py.Ok tt, w1)
         ∧ fs w1 = <[path := body]> (fs w)
         ∧ transfers w1 = (transfers w ++ [(era5_bucket, key, path)])%list
         ∧ Cell10.fetch key path w1 = (Py.Ok tt, w1)
         ∧ fetch_twice key path w = (Py.Ok tt, w1)
         ∧ length (transfers (fetch_twice key path w).2)
           = S (length (transfers w)))
  ∧ (∀ w1, Cell10.fetch key path w = (Py.Ok tt, w1) →
           Cell10.fetch key path w1 = (Py.Ok tt, w1)).
Proof.
  split; [|split].
  - intros c Hc. by apply fetch_present with c.
  - intros body Hn Hobj.
    exists (after_download key path w body).
    pose proof (fetch_absent key path w body Hn Hobj) as H1.
    assert (Cell10.fetch key path (after_download key path w body)
            = (Py.Ok tt, after_download key path w body)) as H2.
    { apply fetch_present with body. cbn. apply lookup_insert_eq. }
    assert (fetch_twice key path w
            = (Py.Ok tt, after_download key path w body)) as H3.
    { unfold fetch_twice, Py.bind. by rewrite H1. }
    repeat split; try done.
    rewrite H3. cbn. rewrite length_app. cbn. lia.
  - intros w1 H1.
    destruct (fetch_leaves_file key path w w1 H1) as [c Hc].
    by apply fetch_present with c.
Qed.

Lemma fetch_idempotent_witness :
  ∃ w1,
    Cell10.fetch "2017/01/data/air_temperature_at_2_metres.nc"
                 "201701_air_temperature_at_2_metres.nc" fresh_world
    = (Py.Ok tt, w1)
    ∧ fetch_twice "2017/01/data/air_temperature_at_2_metres.nc"
                  "201701_air_temperature_at_2_metres.nc" fresh_world
      = (Py.Ok tt, w1)
    ∧ length (transfers w1) = 1.
Proof.
  destruct (fetch_idempotent "2017/01/data/air_temperature_at_2_metres.nc"
              "201701_air_temperature_at_2_metres.nc" fresh_world)
    as (_ & Habsent & _).
  destruct (Habsent "t2m" eq_refl eq_refl) as (w1 & H1 & _ & Htr & _ & H2 & _).
  exists w1. repeat split; [exact H1 | exact H2 |].
  rewrite Htr. reflexivity.
Defined.

(** * The metadata file is fetched without looking *)

Section Metadata.

Variable date : Datetime.date.
Variable w : World.

Lemma cell8_available (body : string) :
  objects w !! (era5_bucket, Cell8.metadata_key date) = Some body →
  Cell8.cell8 date w = (Py.Ok tt, after_metadata date w body).
Proof.
  intros Hobj. unfold Cell8.cell8, Boto3.download_file. by rewrite Hobj.
Qed.

Lemma cell8_unavailable :
  objects w !! (era5_bucket, Cell8.metadata_key date) = None →
  Cell8.cell8 date w = (Py.Raise (Py.ClientError "404 Not Found"), w).
Proof.
  intros Hobj. unfold Cell8.cell8, Boto3.download_file. by rewrite Hobj.
Qed.

End Metadata.

(** C9.  The metadata download is unconditional.  With [main.nc] in the
    bucket, every run of cell 8 makes a transfer and writes the object over
    the local [main.nc], whether or not a local [main.nc] was there and
    whatever it held; a second run transfers again.  The guarded fetch of
    cell 10, given the same key and path, makes no transfer once the local
    file exists. *)
Theorem metadata_fetch_unconditional
  (date : Datetime.date) (w : World) (body : string) :
  objects w !! (era5_bucket, Cell8.metadata_key date) = Some body →
  ∃ w1 w2,
    Cell8.cell8 date w = (Py.Ok tt, w1)
    ∧ fs w1 !! "main.nc" = Some body
    ∧ transfers w1
      = (transfers w
           ++ [(era5_bucket, Cell8.metadata_key date, "main.nc")])%list
    ∧ Cell8.cell8 date w1 = (Py.Ok tt, w2)
    ∧ length (transfers w2) = S (S (length (transfers w)))
    ∧ Cell10.fetch (Cell8.metadata_key date) "main.nc" w1 = (Py.Ok tt, w1).
Proof.
  intros Hobj.
  exists (after_metadata date w body),
         (after_metadata date (after_metadata date w body) body).
  split; [by apply cell8_available|].
  split; [cbn; apply lookup_insert_eq|].
  split; [done|].
  split; [by apply cell8_available|].
  split; [cbn; rewrite !length_app; cbn; lia|].
  apply fetch_present with body. cbn. apply lookup_insert_eq.
Qed.

Lemma metadata_fetch_unconditional_witness :
  ∃ w1 w2,
    Cell8.cell8 date_2017_01 stale_world = (Py.Ok tt, w1)
    ∧ fs w1 !! "main.nc" = Some "meta"
    ∧ transfers w1 = [("era5-pds", "2017/01/main.nc", "main.nc")]
    ∧ Cell8.cell8 date_2017_01 w1 = (Py.Ok tt, w2)
    ∧ length (transfers w2) = 2
    ∧ Cell10.fetch "2017/01/main.nc" "main.nc" w1 = (Py.Ok tt, w1).
Proof.
  exact (metadata_fetch_unconditional date_2017_01 stale_world "meta" eq_refl).
Defined.

(** * Longitudes in degrees east (binary64) *)

Lemma degrees_east_west (l : Cell32.loc) :
  (Cell32.lon l <? 0)%float = true →
  Cell32.degrees_east l
  = Cell32.Loc (Cell32.name l) (360 + Cell32.lon l)%float (Cell32.lat l).
Proof. intros H. unfold Cell32.degrees_east. by rewrite H. Qed.

Lemma degrees_east_not_west (l : Cell32.loc) :
  (Cell32.lon l <? 0)%float = false → Cell32.degrees_east l = l.
Proof. intros H. unfold Cell32.degrees_east. by rewrite H. Qed.

(** [0 <= x] excludes [x < 0], for every float (a nan satisfies neither). *)
Lemma nonneg_not_negative (x : float) :
  (0 <=? x)%float = true → (x <? 0)%float = false.
Proof.
  rewrite leb_spec, ltb_spec.
  replace (Prim2SF 0) with (S754_zero false) by reflexivity.
  destruct (Prim2SF x) as [s|s| |s m e]; try destruct s; cbn; congruence.
Qed.

(** C2, as the specification has it, fails on the value it names: the
    binary64 sum [360 + (-119.6982)] is not the float [240.3018], neither as
    a value nor under Python's [==]. *)
Lemma santa_barbara_not_240_3018 :
  Cell32.lon (Cell32.degrees_east santa_barbara) ≠ 240.3018%float
  ∧ (Cell32.lon (Cell32.degrees_east santa_barbara) =? 240.3018)%float = false.
Proof.
  assert ((Cell32.lon (Cell32.degrees_east santa_barbara) =? 240.3018)%float
          = false) as Hne by (vm_compute; reflexivity).
  split; [|exact Hne].
  intros Heq. rewrite Heq in Hne. vm_compute in Hne. discriminate.
Qed.

(** C2, amended.  Normalization maps every [lon < 0] to the binary64 sum
    [360 + lon] and leaves every [lon >= 0] unchanged.  For [-119.6982] the
    sum is [0x1.e09a858793ddap+7], printed [240.30180000000001]: the float
    next above [240.3018], [2^-45] away from it.  For [10] normalization is
    a no-op. *)
Theorem longitude_normalization (l : Cell32.loc) :
  ((Cell32.lon l <? 0)%float = true →
     Cell32.lon (Cell32.degrees_east l) = (360 + Cell32.lon l)%float)
  ∧ ((0 <=? Cell32.lon l)%float = true →
       Cell32.degrees_east l = l)
  ∧ Cell32.lon (Cell32.degrees_east santa_barbara) = 0x1.e09a858793ddap+7%float
  ∧ (Cell32.lon (Cell32.degrees_east santa_barbara) - 240.3018)%float
    = 0x1p-45%float
  ∧ next_up 240.3018 = Cell32.lon (Cell32.degrees_east santa_barbara)
  ∧ Cell32.lon (Cell32.degrees_east (Cell32.Loc "east" 10 0)) = 10%float.
Proof.
  split; [|split].
  - intros H. by rewrite (degrees_east_west l H).
  - intros H. apply degrees_east_not_west. by apply nonneg_not_negative.
  - repeat split; vm_compute; reflexivity.
Qed.

Lemma longitude_normalization_witness :
  Cell32.lon (Cell32.degrees_east (Cell32.Loc "seattle" (-122.3321) 47.6062))
  = (360 + -122.3321)%float
  ∧ Cell32.degrees_east (Cell32.Loc "east" 10 0) = Cell32.Loc "east" 10 0.
Proof.
  split.
  - apply (longitude_normalization
             (Cell32.Loc "seattle" (-122.3321) 47.6062)).
    reflexivity.
  - apply (longitude_normalization (Cell32.Loc "east" 10 0)).
    reflexivity.
Defined.

Example cell32_locs :
  Cell32.lon <$> Cell32.cell32 Cell32.locs
  = [ 0x1.e09a858793ddap+7; 0x1.fe5b71758e21ap+7;
      0x1.9453ffef39086p+7; 0x1.db55f6fd21ff3p+7 ]%float.
Proof. vm_compute. reflexivity. Qed.

(** * Unit conversion *)

Section Conversion.

Variable ds : Xarray.Dataset.
Variables pv tv : Xarray.Var.
Hypothesis has_msl : Xarray.data_vars ds !! Cell17.msl = Some pv.
Hypothesis has_t2m : Xarray.data_vars ds !! Cell17.t2m = Some tv.

Lemma names_differ : Cell17.msl ≠ Cell17.t2m.
Proof. discriminate. Qed.

Lemma cell17_run : Cell17.cell17 ds = (Py.Ok tt, converted ds pv tv).
Proof using has_msl has_t2m.
  unfold Cell17.cell17, Py.bind, Xarray.getattr, Xarray.setitem,
    Xarray.set_attr, Py.modify; cbn.
  rewrite has_msl; cbn.
  rewrite lookup_insert_eq; cbn.
  rewrite insert_insert_eq.
  rewrite lookup_insert_ne by exact names_differ.
  rewrite has_t2m; cbn.
  rewrite lookup_insert_eq; cbn.
  rewrite insert_insert_eq.
  unfold converted, celsius_var, hPa_var.
  by rewrite !insert_empty.
Qed.



End Conversion.

(** A dataset without the pressure variable stops the cell at its first
    line; one without the temperature variable stops it after the pressure
    has been converted. *)
Lemma cell17_no_msl (ds : Xarray.Dataset) :
  Xarray.data_vars ds !! Cell17.msl = None →
  Cell17.cell17 ds = (Py.Raise (Py.AttributeError Cell17.msl), ds).
Proof.
  intros H. unfold Cell17.cell17, Py.bind, Xarray.getattr. by rewrite H.
Qed.

(** * binary64 arithmetic rounds to nearest *)

Section Rounding.

Open Scope Z_scope.











Lemma two_pow_lt (a b : Z) : a < b → (2 ^ a < 2 ^ b)%Q.
Proof. intros H. apply Qpower_lt_compat_l; [exact H | reflexivity]. Qed.




































(** ** From the specification to the machine operations *)
































End Rounding.

(** On the small grid: the first entries after one run and after two, as
    binary64 computes them. *)
Example cell17_on_example :
  match Cell17.cell17 example_ds with
  | (Py.Ok tt, once) =>
      entry once Cell17.msl example_store 0 0 0 = Some 0x1.faap+9%float
      ∧ entry once Cell17.t2m example_store 0 0 0
        = Some (-0x1.7266666666660p+4)%float
      ∧ match Cell17.cell17 once with
        | (Py.Ok tt, twice) =>
            entry twice Cell17.msl example_store 0 0 0
            = Some 0x1.443d70a3d70a4p+3%float
            ∧ entry twice Cell17.t2m example_store 0 0 0
              = Some (-0x1.284ccccccccccp+8)%float
        | _ => False
        end
  | _ => False
  end.
Proof. vm_compute. repeat split. Qed.

(** The round trip is not the identity on binary64: a temperature far
    below the offset is lost, and a pressure in the subnormal range comes
    back changed. *)
Example round_trip_rounds :
  Cell17.from_celsius (1e-20 - 273.15) = 0%float
  ∧ Cell17.from_hPa (1e-320 / 100) = 0x0.00000000007d0p-1022%float
  ∧ Cell17.from_celsius (250 - 273.15) = 250%float
  ∧ Cell17.from_hPa (101325 / 100) = 101325%float.
Proof. vm_compute. repeat split. Qed.







(** * Persisting changes no value *)

Lemma persist_values (da : Xarray.DataArray) (now later : Dask.Store) t i j :
  Xarray.values (Xarray.da_variable (Xarray.persist da now)) later t i j
  = Xarray.values (Xarray.da_variable da) now t i j.
Proof. reflexivity. Qed.

Lemma mean_of_persisted (da : Xarray.DataArray) (now later : Dask.Store) i j :
  Dask.compute (Xarray.f_values (Xarray.mean_time0 (Xarray.persist da now)))
               later i j
  = Dask.compute (Xarray.f_values (Xarray.mean_time0 da)) now i j.
Proof. reflexivity. Qed.

(** C7.  The mean over time0 computed from the persisted handle (cells 25
    and 27) equals the mean computed directly from the dataset (cells 19 and
    21) on the files that were there when the handle was persisted, entry by
    entry, and over the same latitudes and longitudes; whatever happens to
    the files after [persist] does not reach the persisted handle.  The two
    paths also fail together, when the dataset has no temperature
    variable. *)
Theorem persist_preserves_mean
  (ds : Xarray.Dataset) (now later : Dask.Store) :
  match Cell19.cell19 ds, Cell19.cell25 ds now with
  | Py.Ok da_temp_mean, Py.Ok air_temp =>
      (∀ i j, Cell19.cell27 air_temp later i j
              = Cell19.cell21 da_temp_mean now i j)
      ∧ Xarray.f_lat (Xarray.mean_time0 air_temp) = Xarray.f_lat da_temp_mean
      ∧ Xarray.f_lon (Xarray.mean_time0 air_temp) = Xarray.f_lon da_temp_mean
      ∧ ∀ t i j,
          Xarray.values (Xarray.da_variable air_temp) later t i j
          = default 0%float (entry ds Cell17.t2m now t i j)
  | Py.Raise e, Py.Raise e' => e = e'
  | _, _ => False
  end.
Proof.
  unfold Cell19.cell19, Cell19.cell25, Xarray.getitem, entry.
  destruct (Xarray.data_vars ds !! Cell17.t2m) as [v|]; [|reflexivity].
  repeat split.
Qed.

Example mean_on_example :
  match Cell19.cell25 example_ds example_store with
  | Py.Ok air_temp =>
      Cell19.cell27 air_temp (λ _ _ _ _, 0%float) 1 2 = 262.5%float
  | Py.Raise _ => False
  end.
Proof. vm_compute. reflexivity. Qed.

(** * Counting labels in an ordered coordinate *)

Open Scope nat_scope.

Lemma Qltb_lt (x y : Q) : Pandas.Qltb x y = true ↔ (x < y)%Q.
Proof.
  unfold Pandas.Qltb. rewrite negb_true_iff.
  split.
  - intros H. apply Qnot_le_lt. intros Hle.
    apply Qle_bool_iff in Hle. congruence.
  - intros H. destruct (Qle_bool y x) eqn:E; [|done].
    apply Qle_bool_iff in E. lra.
Qed.

Lemma Qltb_ge (x y : Q) : Pandas.Qltb x y = false ↔ (y <= x)%Q.
Proof.
  unfold Pandas.Qltb. rewrite negb_false_iff. apply Qle_bool_iff.
Qed.

Lemma Qle_bool_gt (x y : Q) : Qle_bool x y = false ↔ (y < x)%Q.
Proof.
  split.
  - intros H. apply Qnot_le_lt. intros Hle.
    apply Qle_bool_iff in Hle. congruence.
  - intros H. destruct (Qle_bool x y) eqn:E; [|done].
    apply Qle_bool_iff in E. lra.
Qed.

Section Count.

Variables f g : Q → bool.

Lemma count_le_length (l : list Q) : Pandas.count f l ≤ length l.
Proof. induction l as [|x l IH]; cbn; [lia|]. destruct (f x); lia. Qed.

Lemma count_app (l1 l2 : list Q) :
  Pandas.count f (l1 ++ l2) = Pandas.count f l1 + Pandas.count f l2.
Proof. induction l1 as [|x l1 IH]; cbn; [done|]. rewrite IH. lia. Qed.

Lemma count_reverse (l : list Q) :
  Pandas.count f (reverse l) = Pandas.count f l.
Proof.
  induction l as [|x l IH]; [done|].
  rewrite reverse_cons, count_app, IH. cbn. lia.
Qed.

Lemma count_complement (l : list Q) :
  Pandas.count f l + Pandas.count (λ x, negb (f x)) l = length l.
Proof. induction l as [|x l IH]; cbn; [done|]. destruct (f x); cbn; lia. Qed.

Lemma count_ext_in (l : list Q) :
  (∀ x, x ∈ l → f x = g x) → Pandas.count f l = Pandas.count g l.
Proof.
  induction l as [|x l IH]; intros H; cbn; [done|].
  rewrite (H x) by left. rewrite IH; [done|].
  intros y Hy. apply H. by right.
Qed.

Lemma count_mono (l : list Q) :
  (∀ x, f x = true → g x = true) → Pandas.count f l ≤ Pandas.count g l.
Proof.
  intros H. induction l as [|x l IH]; cbn; [lia|].
  destruct (f x) eqn:E; [rewrite (H x E); lia|]. destruct (g x); lia.
Qed.

Lemma count_zero (l : list Q) :
  Pandas.count f l = 0 ↔ ∀ x, x ∈ l → f x = false.
Proof.
  induction l as [|x l IH]; cbn.
  - split; [intros _ y Hy; inversion Hy | done].
  - split.
    + intros H y Hy. destruct (f x) eqn:E; [lia|].
      apply elem_of_cons in Hy as [->|Hy]; [done|].
      apply IH; [lia | done].
    + intros H. rewrite (H x) by left. cbn. apply IH.
      intros y Hy. apply H. by right.
Qed.

(** In a list on which [f] falls, [f] holds exactly on the first
    [count f l] positions. *)
Lemma count_prefix (l : list Q) (j : nat) (x : Q) :
  falls f l → l !! j = Some x → (f x = true ↔ j < Pandas.count f l).
Proof.
  revert j. induction l as [|a l IH]; intros j Hf Hj; [done|].
  destruct Hf as [Ha Hl].
  destruct j as [|j]; cbn in *.
  - injection Hj as ->. destruct (f x) eqn:E; [split; [lia|done]|].
    rewrite (Ha eq_refl). split; [done | lia].
  - destruct (f a) eqn:E.
    + rewrite (IH j Hl Hj). lia.
    + rewrite (Ha eq_refl). split; [|lia].
      intros Hx. pose proof (proj1 (count_zero l) (Ha eq_refl) x) as H0.
      rewrite H0 in Hx; [done|]. by apply list_elem_of_lookup_2 with j.
Qed.

Lemma falls_sorted (R : Q → Q → Prop) (l : list Q) :
  (∀ x y, R x y → f x = false → f y = false) →
  sorted_by R l → falls f l.
Proof.
  intros HR. induction l as [|a l IH]; intros Hs; [done|].
  destruct Hs as [Ha Hl]. split; [|by apply IH].
  intros Hfa. apply count_zero. intros y Hy.
  rewrite Forall_forall in Ha. by apply HR with a; [apply Ha|].
Qed.

End Count.

Lemma sorted_lookup (R : Q → Q → Prop) (l : list Q) (i j : nat) (x y : Q) :
  sorted_by R l → l !! i = Some x → l !! j = Some y → i < j → R x y.
Proof.
  revert i j. induction l as [|a l IH]; intros i j Hs Hi Hj Hij; [done|].
  destruct Hs as [Ha Hl].
  destruct j as [|j]; [lia|]. cbn in Hj.
  destruct i as [|i]; cbn in Hi.
  - injection Hi as ->. rewrite Forall_forall in Ha.
    apply Ha. by apply list_elem_of_lookup_2 with j.
  - apply (IH i j); [done..|lia].
Qed.

Lemma increasing_sorted (l : list Q) :
  Pandas.is_monotonic_increasing l = true → sorted_by Qle l.
Proof.
  induction l as [|a l IH]; [done|].
  intros H. assert (Pandas.is_monotonic_increasing l = true) as Hl.
  { destruct l as [|b l]; [done|]. cbn in H. by apply andb_true_iff in H as []. }
  split; [|by apply IH].
  destruct l as [|b l]; [constructor|].
  cbn in H. apply andb_true_iff in H as [Hab _]. apply Qle_bool_iff in Hab.
  destruct (IH Hl) as [Hb _].
  constructor; [done|].
  eapply Forall_impl; [exact Hb|]. intros y Hy. cbn in Hy. lra.
Qed.

Lemma decreasing_sorted (l : list Q) :
  Pandas.is_monotonic_decreasing l = true → sorted_by (λ x y, (y <= x)%Q) l.
Proof.
  induction l as [|a l IH]; [done|].
  intros H. assert (Pandas.is_monotonic_decreasing l = true) as Hl.
  { destruct l as [|b l]; [done|]. cbn in H. by apply andb_true_iff in H as []. }
  split; [|by apply IH].
  destruct l as [|b l]; [constructor|].
  cbn in H. apply andb_true_iff in H as [Hab _]. apply Qle_bool_iff in Hab.
  destruct (IH Hl) as [Hb _].
  constructor; [done|].
  eapply Forall_impl; [exact Hb|]. intros y Hy. cbn in Hy. lra.
Qed.

Lemma ascending_sorted (idx : list Q) : ascending idx → sorted_by Qle idx.
Proof.
  unfold ascending, Pandas.monotonic. intros H.
  apply increasing_sorted.
  destruct (Pandas.is_monotonic_increasing idx); [done|].
  destruct (Pandas.is_monotonic_decreasing idx); discriminate.
Qed.

Lemma descending_sorted (idx : list Q) :
  descending idx → sorted_by (λ x y, (y <= x)%Q) idx.
Proof.
  unfold descending, Pandas.monotonic. intros H.
  apply decreasing_sorted.
  destruct (Pandas.is_monotonic_increasing idx); [discriminate|].
  destruct (Pandas.is_monotonic_decreasing idx); [done | discriminate].
Qed.

(** * Slicing a coordinate by labels *)

Lemma bound_ascending (idx : list Q) (v : Q) (s : Pandas.side) :
  ascending idx →
  Pandas.get_slice_bound idx v s = Py.Ok (Pandas.searchsorted idx v s).
Proof.
  intros H. unfold Pandas.get_slice_bound, Pandas.searchsorted_monotonic.
  by rewrite H.
Qed.

Lemma bound_descending_left (idx : list Q) (v : Q) :
  descending idx →
  Pandas.get_slice_bound idx v Pandas.Left
  = Py.Ok (Pandas.count (λ x, Pandas.Qltb v x) idx).
Proof.
  intros H. unfold Pandas.get_slice_bound, Pandas.searchsorted_monotonic.
  rewrite H. unfold Pandas.other, Pandas.searchsorted.
  rewrite count_reverse. f_equal.
  pose proof (count_complement (λ x, Qle_bool x v) idx) as Hc.
  cbn beta in Hc. unfold Pandas.Qltb. lia.
Qed.

Lemma bound_descending_right (idx : list Q) (v : Q) :
  descending idx →
  Pandas.get_slice_bound idx v Pandas.Right
  = Py.Ok (Pandas.count (λ x, Qle_bool v x) idx).
Proof.
  intros H. unfold Pandas.get_slice_bound, Pandas.searchsorted_monotonic.
  rewrite H. unfold Pandas.other, Pandas.searchsorted.
  rewrite count_reverse. f_equal.
  pose proof (count_complement (λ x, Pandas.Qltb x v) idx) as Hc.
  rewrite (count_ext_in (λ x, negb (Pandas.Qltb x v)) (λ x, Qle_bool v x)) in Hc.
  - lia.
  - intros x _. unfold Pandas.Qltb. apply negb_involutive.
Qed.

Lemma py_slice_lookup {A} (lo hi : nat) (l : list A) (k : nat) (x : A) :
  Pandas.py_slice lo hi l !! k = Some x ↔ l !! (lo + k) = Some x ∧ lo + k < hi.
Proof.
  unfold Pandas.py_slice. rewrite lookup_take_Some, lookup_drop.
  split; intros [? ?]; split; (done || lia).
Qed.

(** The positions a label slice keeps are those of the labels between the
    bounds: on a descending index [stop <= x <= start], on an ascending one
    [start <= x <= stop]. *)
Lemma slice_descending (idx : list Q) (start stop : Q) :
  descending idx →
  ∃ lo hi,
    Pandas.slice_indexer idx start stop = Py.Ok (lo, hi)
    ∧ ∀ j x, idx !! j = Some x → (lo ≤ j < hi ↔ inside stop start x).
Proof.
  intros H.
  exists (Pandas.count (λ x, Pandas.Qltb start x) idx),
         (Pandas.count (λ x, Qle_bool stop x) idx).
  split.
  - unfold Pandas.slice_indexer.
    by rewrite (bound_descending_left idx start H),
               (bound_descending_right idx stop H).
  - intros j x Hj.
    pose proof (descending_sorted idx H) as Hs.
    assert (falls (λ x, Pandas.Qltb start x) idx) as F1.
    { apply falls_sorted with (R := λ x y, (y <= x)%Q); [|done].
      intros a b Hab Ha. apply Qltb_ge in Ha. apply Qltb_ge. lra. }
    assert (falls (λ x, Qle_bool stop x) idx) as F2.
    { apply falls_sorted with (R := λ x y, (y <= x)%Q); [|done].
      intros a b Hab Ha. apply Qle_bool_gt in Ha. apply Qle_bool_gt. lra. }
    pose proof (count_prefix _ idx j x F1 Hj) as P1.
    pose proof (count_prefix _ idx j x F2 Hj) as P2.
    cbn beta in P1, P2. rewrite Qltb_lt in P1. rewrite Qle_bool_iff in P2.
    unfold inside. split.
    + intros [Hlo Hhi]. split; [by apply P2|].
      destruct (Qlt_le_dec start x) as [Hgt|Hle]; [|done].
      apply P1 in Hgt. lia.
    + intros [H1 H2]. split; [|by apply P2].
      destruct (decide (j < Pandas.count (λ x, Pandas.Qltb start x) idx))
        as [Hlt|Hge]; [|lia].
      apply P1 in Hlt. lra.
Qed.

Lemma slice_ascending (idx : list Q) (start stop : Q) :
  ascending idx →
  ∃ lo hi,
    Pandas.slice_indexer idx start stop = Py.Ok (lo, hi)
    ∧ ∀ j x, idx !! j = Some x → (lo ≤ j < hi ↔ inside start stop x).
Proof.
  intros H.
  exists (Pandas.count (λ x, Pandas.Qltb x start) idx),
         (Pandas.count (λ x, Qle_bool x stop) idx).
  split.
  - unfold Pandas.slice_indexer. by rewrite !(bound_ascending idx _ _ H).
  - intros j x Hj.
    pose proof (ascending_sorted idx H) as Hs.
    assert (falls (λ x, Pandas.Qltb x start) idx) as F1.
    { apply falls_sorted with (R := Qle); [|done].
      intros a b Hab Ha. apply Qltb_ge in Ha. apply Qltb_ge. lra. }
    assert (falls (λ x, Qle_bool x stop) idx) as F2.
    { apply falls_sorted with (R := Qle); [|done].
      intros a b Hab Ha. apply Qle_bool_gt in Ha. apply Qle_bool_gt. lra. }
    pose proof (count_prefix _ idx j x F1 Hj) as P1.
    pose proof (count_prefix _ idx j x F2 Hj) as P2.
    cbn beta in P1, P2. rewrite Qltb_lt in P1. rewrite Qle_bool_iff in P2.
    unfold inside. split.
    + intros [Hlo Hhi]. split; [|by apply P2].
      destruct (Qlt_le_dec x start) as [Hgt|Hle]; [|done].
      apply P1 in Hgt. lia.
    + intros [H1 H2]. split; [|by apply P2].
      destruct (decide (j < Pandas.count (λ x, Pandas.Qltb x start) idx))
        as [Hlt|Hge]; [|lia].
      apply P1 in Hlt. lra.
Qed.

Section Kept.

Variable idx : list Q.
Variables lo hi : nat.
Variable P : Q → Prop.
Hypothesis kept : ∀ j x, idx !! j = Some x → (lo ≤ j < hi ↔ P x).

Lemma kept_all : Forall P (Pandas.py_slice lo hi idx).
Proof using kept.
  apply Forall_lookup. intros k x Hk.
  apply py_slice_lookup in Hk as [Hk Hlt].
  apply (kept _ _ Hk). lia.
Qed.

Lemma kept_every (x : Q) : x ∈ idx → P x → x ∈ Pandas.py_slice lo hi idx.
Proof using kept.
  intros Hx HP. apply list_elem_of_lookup_1 in Hx as [j Hj].
  apply (kept _ _ Hj) in HP.
  apply list_elem_of_lookup_2 with (j - lo).
  apply py_slice_lookup. replace (lo + (j - lo)) with j by lia.
  split; [done | lia].
Qed.

Lemma kept_nonempty : (∃ x, x ∈ idx ∧ P x) → Pandas.py_slice lo hi idx ≠ [].
Proof using kept.
  intros (x & Hx & HP) Hnil.
  pose proof (kept_every x Hx HP) as Hin. rewrite Hnil in Hin.
  by apply not_elem_of_nil in Hin.
Qed.

Lemma kept_none : (∀ x, ¬ P x) → Pandas.py_slice lo hi idx = [].
Proof using kept.
  intros Hno. destruct (Pandas.py_slice lo hi idx) as [|x l] eqn:E; [done|].
  exfalso. apply (Hno x).
  assert (Pandas.py_slice lo hi idx !! 0 = Some x) as H0 by by rewrite E.
  apply py_slice_lookup in H0 as [H0 Hlt].
  apply (kept _ _ H0). lia.
Qed.

End Kept.

(** * The bounding box *)

(** What [sel] with two label slices returns, given the slices. *)
Lemma sel_slices_ok (ds : Xarray.Dataset) (a b c d : Q) (ilo ihi jlo jhi : nat) :
  Pandas.slice_indexer (Xarray.lat ds) a b = Py.Ok (ilo, ihi) →
  Pandas.slice_indexer (Xarray.lon ds) c d = Py.Ok (jlo, jhi) →
  Xarray.sel_slices ds a b c d
  = Py.Ok (Xarray.mkDataset (Xarray.time0 ds)
             (Pandas.py_slice ilo ihi (Xarray.lat ds))
             (Pandas.py_slice jlo jhi (Xarray.lon ds))
             (Xarray.window ilo jlo <$> Xarray.data_vars ds)).
Proof. intros H1 H2. unfold Xarray.sel_slices. by rewrite H1, H2. Qed.


(** C4.  On a dataset whose latitudes are stored descending and whose
    longitudes are stored ascending, and which has a latitude in [30, 50]
    and a longitude in [220, 255], the selection of cell 15 returns a
    dataset with at least one latitude and one longitude, all its latitudes
    in [30, 50] and all its longitudes in [220, 255]; it keeps every grid
    latitude and longitude that lies within the bounds. *)
Theorem bounding_box_selection (ds : Xarray.Dataset) :
  descending (Xarray.lat ds) →
  ascending (Xarray.lon ds) →
  (∃ y, y ∈ Xarray.lat ds ∧ inside 30 50 y) →
  (∃ x, x ∈ Xarray.lon ds ∧ inside 220 255 x) →
  ∃ ds',
    Cell15.cell15 ds = Py.Ok ds'
    ∧ Xarray.lat ds' ≠ []
    ∧ Xarray.lon ds' ≠ []
    ∧ Forall (inside 30 50) (Xarray.lat ds')
    ∧ Forall (inside 220 255) (Xarray.lon ds')
    ∧ (∀ y, y ∈ Xarray.lat ds → inside 30 50 y → y ∈ Xarray.lat ds')
    ∧ (∀ x, x ∈ Xarray.lon ds → inside 220 255 x → x ∈ Xarray.lon ds').
Proof.
  intros Hlat Hlon Hy Hx.
  destruct (slice_descending (Xarray.lat ds) 50 30 Hlat)
    as (ilo & ihi & Hi & Ki).
  destruct (slice_ascending (Xarray.lon ds) (360 - 140) (360 - 105) Hlon)
    as (jlo & jhi & Hj & Kj).
  change (360 - 140)%Q with (220 # 1)%Q in Kj.
  change (360 - 105)%Q with (255 # 1)%Q in Kj.
  eexists. split; [unfold Cell15.cell15; by apply sel_slices_ok|].
  cbn.
  split; [by apply kept_nonempty with (P := inside 30 50)|].
  split; [by apply kept_nonempty with (P := inside 220 255)|].
  split; [by apply kept_all|].
  split; [by apply kept_all|].
  split; intros z Hz Hin; by eapply kept_every.
Qed.

Lemma example_lat_descending : descending (Xarray.lat example_ds).
Proof. reflexivity. Qed.

Lemma example_lon_ascending : ascending (Xarray.lon example_ds).
Proof. reflexivity. Qed.

Lemma bounding_box_selection_witness :
  ∃ ds',
    Cell15.cell15 example_ds = Py.Ok ds'
    ∧ Xarray.lat ds' ≠ []
    ∧ Xarray.lon ds' ≠ []
    ∧ Forall (inside 30 50) (Xarray.lat ds')
    ∧ Forall (inside 220 255) (Xarray.lon ds').
Proof.
  destruct (bounding_box_selection example_ds
              example_lat_descending example_lon_ascending)
    as (ds' & H1 & H2 & H3 & H4 & H5 & _).
  - exists 40%Q. split; [|split; discriminate].
    cbn. apply list_elem_of_lookup_2 with 2. reflexivity.
  - exists 230%Q. split; [|split; discriminate].
    cbn. apply list_elem_of_lookup_2 with 2. reflexivity.
  - by exists ds'.
Defined.

Example cell15_on_example :
  match Cell15.cell15 example_ds with
  | Py.Ok ds' =>
      Xarray.lat ds' = [50; 40; 30]%Q
      ∧ Xarray.lon ds' = [220; 230; 255]%Q
      ∧ entry ds' Cell17.t2m example_store 0 0 0
        = entry example_ds Cell17.t2m example_store 0 1 1
  | Py.Raise _ => False
  end.
Proof. vm_compute. repeat split. Qed.

(** A coordinate with a single label has no direction of its own; pandas
    takes it for ascending, and descending bounds select nothing from it. *)
Example single_latitude :
  ascending [40%Q]
  ∧ Pandas.slice_indexer [40%Q] 50 30 = Py.Ok (1, 0)
  ∧ Pandas.slice_indexer [40%Q] 30 50 = Py.Ok (0, 1).
Proof. repeat split. Qed.

(** Two labels in strictly decreasing order make a descending coordinate,
    and so does any longer strictly decreasing one. *)
Lemma strictly_decreasing_descending (x y : Q) (rest : list Q) :
  (y < x)%Q →
  Pandas.is_monotonic_decreasing (x :: y :: rest) = true →
  descending (x :: y :: rest).
Proof.
  intros Hxy Hdec. unfold descending, Pandas.monotonic. rewrite Hdec.
  cbn. apply Qle_bool_gt in Hxy. by rewrite Hxy.
Qed.

(** * Bounds against the direction of the coordinate *)

Lemma against_nothing_inside (idx : list Q) (d : Pandas.direction)
  (start stop : Q) :
  Pandas.monotonic idx = Some d →
  against d start stop →
  ∃ lo hi,
    Pandas.slice_indexer idx start stop = Py.Ok (lo, hi)
    ∧ Pandas.py_slice lo hi idx = [].
Proof.
  intros Hd Hag. destruct d; cbn in Hag.
  - destruct (slice_ascending idx start stop Hd) as (lo & hi & Hs & K).
    exists lo, hi. split; [done|].
    apply kept_none with (P := inside start stop); [done|].
    intros x [? ?]. lra.
  - destruct (slice_descending idx start stop Hd) as (lo & hi & Hs & K).
    exists lo, hi. split; [done|].
    apply kept_none with (P := inside stop start); [done|].
    intros x [? ?]. lra.
Qed.

Lemma monotonic_slices (idx : list Q) (d : Pandas.direction) (start stop : Q) :
  Pandas.monotonic idx = Some d →
  ∃ lo hi, Pandas.slice_indexer idx start stop = Py.Ok (lo, hi).
Proof.
  intros Hd. destruct d.
  - destruct (slice_ascending idx start stop Hd) as (lo & hi & Hs & _). eauto.
  - destruct (slice_descending idx start stop Hd) as (lo & hi & Hs & _). eauto.
Qed.

(** C5.  On a dataset whose two coordinates each have a direction, a
    selection whose latitude bounds, or whose longitude bounds, run against
    the direction of that coordinate does not raise: it returns a dataset
    in which that coordinate is empty, so the subset has no grid point. *)
Theorem reversed_bounds_select_nothing
  (ds : Xarray.Dataset) (dlat dlon : Pandas.direction)
  (lat_start lat_stop lon_start lon_stop : Q) :
  Pandas.monotonic (Xarray.lat ds) = Some dlat →
  Pandas.monotonic (Xarray.lon ds) = Some dlon →
  against dlat lat_start lat_stop ∨ against dlon lon_start lon_stop →
  ∃ ds',
    Xarray.sel_slices ds lat_start lat_stop lon_start lon_stop = Py.Ok ds'
    ∧ (against dlat lat_start lat_stop → Xarray.lat ds' = [])
    ∧ (against dlon lon_start lon_stop → Xarray.lon ds' = [])
    ∧ length (Xarray.lat ds') * length (Xarray.lon ds') = 0.
Proof.
  intros Hlat Hlon Hag.
  destruct (monotonic_slices _ _ lat_start lat_stop Hlat) as (ilo & ihi & Hi).
  destruct (monotonic_slices _ _ lon_start lon_stop Hlon) as (jlo & jhi & Hj).
  eexists. split; [by apply sel_slices_ok|]. cbn.
  assert (against dlat lat_start lat_stop →
          Pandas.py_slice ilo ihi (Xarray.lat ds) = []) as Elat.
  { intros Ha.
    destruct (against_nothing_inside _ _ _ _ Hlat Ha) as (lo & hi & Hs & Hn).
    rewrite Hs in Hi. by injection Hi as <- <-. }
  assert (against dlon lon_start lon_stop →
          Pandas.py_slice jlo jhi (Xarray.lon ds) = []) as Elon.
  { intros Ha.
    destruct (against_nothing_inside _ _ _ _ Hlon Ha) as (lo & hi & Hs & Hn).
    rewrite Hs in Hj. by injection Hj as <- <-. }
  split; [done|]. split; [done|].
  destruct Hag as [Ha|Ha].
  - by rewrite (Elat Ha).
  - rewrite (Elon Ha). cbn. lia.
Qed.

Lemma reversed_bounds_select_nothing_witness :
  ∃ ds',
    Xarray.sel_slices example_ds 30 50 220 255 = Py.Ok ds'
    ∧ Xarray.lat ds' = [].
Proof.
  destruct (reversed_bounds_select_nothing example_ds
              Pandas.Decreasing Pandas.Increasing 30 50 220 255
              eq_refl eq_refl)
    as (ds' & Hrun & Hlat & _).
  - left. reflexivity.
  - exists ds'. split; [exact Hrun|]. apply Hlat. reflexivity.
Defined.

(** * The nearest label *)

Lemma distance_cases (x t : Q) :
  ((t <= x)%Q ∧ (Pandas.distance x t == x - t)%Q)
  ∨ ((x <= t)%Q ∧ (Pandas.distance x t == t - x)%Q).
Proof.
  unfold Pandas.distance.
  destruct (Qlt_le_dec x t) as [Hlt|Hge].
  - right. split; [lra|]. rewrite Qabs_neg by lra. ring.
  - left. split; [done|]. rewrite Qabs_pos by lra. ring.
Qed.

Lemma distance_above (t y x : Q) :
  (t <= y)%Q → (y <= x)%Q → (Pandas.distance y t <= Pandas.distance x t)%Q.
Proof.
  intros H1 H2.
  destruct (distance_cases y t) as [[? Ey]|[? Ey]],
           (distance_cases x t) as [[? Ex]|[? Ex]]; rewrite Ey, Ex; lra.
Qed.

Lemma distance_below (t y x : Q) :
  (x <= y)%Q → (y <= t)%Q → (Pandas.distance y t <= Pandas.distance x t)%Q.
Proof.
  intros H1 H2.
  destruct (distance_cases y t) as [[? Ey]|[? Ey]],
           (distance_cases x t) as [[? Ex]|[? Ex]]; rewrite Ey, Ex; lra.
Qed.

Lemma distance_zero (x t : Q) :
  (x == t)%Q ↔ (Pandas.distance x t <= 0)%Q.
Proof.
  destruct (distance_cases x t) as [[? E]|[? E]]; rewrite E; split; lra.
Qed.

Lemma distance_nonneg (x t : Q) : (0 <= Pandas.distance x t)%Q.
Proof. apply Qabs_nonneg. Qed.

Lemma unique_lookup (idx : list Q) (a b : nat) (x y : Q) :
  Pandas.is_unique idx = true →
  idx !! a = Some x → idx !! b = Some y → (x == y)%Q → a = b.
Proof.
  revert a b. induction idx as [|h idx IH]; intros a b Hu Ha Hb Hxy; [done|].
  cbn in Hu. apply andb_true_iff in Hu as [Hh Hu].
  rewrite forallb_forall in Hh.
  assert (∀ k z, idx !! k = Some z → ¬ (h == z)%Q) as Hfresh.
  { intros k z Hk Hhz.
    assert (In z idx) as Hin.
    { apply list_elem_of_In. by apply list_elem_of_lookup_2 with k. }
    specialize (Hh z Hin). apply negb_true_iff in Hh.
    apply Qeq_bool_iff in Hhz. congruence. }
  destruct a as [|a], b as [|b]; cbn in Ha, Hb.
  - done.
  - injection Ha as ->. by destruct (Hfresh b y Hb).
  - injection Hb as ->. destruct (Hfresh a x Ha). by symmetry.
  - f_equal. by apply IH.
Qed.

Lemma find_exact_some (t : Q) (idx : list Q) (i0 p : nat) :
  Pandas.find_exact t idx i0 = Some p →
  ∃ k x, p = i0 + k ∧ idx !! k = Some x ∧ (x == t)%Q.
Proof.
  revert i0. induction idx as [|h idx IH]; intros i0 H; [done|].
  cbn in H. destruct (Qeq_bool h t) eqn:E.
  - injection H as <-. exists 0, h.
    split; [lia|]. split; [done|]. by apply Qeq_bool_iff.
  - destruct (IH _ H) as (k & x & -> & Hk & Hx).
    exists (S k), x. split; [lia|]. by split.
Qed.

Lemma find_exact_none (t : Q) (idx : list Q) (i0 : nat) :
  Pandas.find_exact t idx i0 = None → ∀ x, x ∈ idx → ¬ (x == t)%Q.
Proof.
  revert i0. induction idx as [|h idx IH]; intros i0 H x Hx.
  - by apply not_elem_of_nil in Hx.
  - cbn in H. destruct (Qeq_bool h t) eqn:E; [done|].
    apply elem_of_cons in Hx as [->|Hx].
    + intros Heq. apply Qeq_bool_iff in Heq. congruence.
    + by apply (IH _ H).
Qed.

Lemma sorted_lookup_le (R : Q → Q → Prop) (l : list Q) (i j : nat) (x y : Q) :
  (∀ z, R z z) →
  sorted_by R l → l !! i = Some x → l !! j = Some y → i ≤ j → R x y.
Proof.
  intros Hrefl Hs Hi Hj Hij.
  destruct (decide (i = j)) as [->|Hne].
  - rewrite Hi in Hj. injection Hj as ->. apply Hrefl.
  - apply (sorted_lookup R l i j); [done..|lia].
Qed.

Lemma last_is_lookup (idx : list Q) :
  idx ≠ [] → ∃ x, last idx = Some x ∧ idx !! (length idx - 1) = Some x.
Proof.
  intros Hne. rewrite last_lookup.
  replace (pred (length idx)) with (length idx - 1) by lia.
  destruct (lookup_lt_is_Some_2 idx (length idx - 1)) as [x Hx].
  - destruct idx; [done | cbn; lia].
  - by exists x.
Qed.

Lemma pick_left_when_no_right (closer : bool) (left : option nat) :
  (if closer || bool_decide (@None nat = None) then left else None) = left.
Proof. rewrite bool_decide_eq_true_2 by done. by rewrite orb_true_r. Qed.

Lemma pick_by_closer (closer : bool) (left : option nat) (k : nat) :
  (if closer || bool_decide (Some k = None) then left else Some k)
  = if closer then left else Some k.
Proof. rewrite bool_decide_eq_false_2 by done. by rewrite orb_false_r. Qed.

Lemma nearest_ascending (idx : list Q) (t : Q) :
  Pandas.is_unique idx = true → ascending idx → idx ≠ [] →
  ∃ i, Pandas.get_loc_nearest idx t = Py.Ok i ∧ nearest_at idx t i.
Proof.
  intros Hu Ha Hne.
  pose proof (ascending_sorted idx Ha) as Hs.
  assert (falls (λ x, Qle_bool x t) idx) as F1.
  { apply falls_sorted with (R := Qle); [|done].
    intros a b Hab H. apply Qle_bool_gt in H. apply Qle_bool_gt. lra. }
  assert (falls (λ x, Pandas.Qltb x t) idx) as F2.
  { apply falls_sorted with (R := Qle); [|done].
    intros a b Hab H. apply Qltb_ge in H. apply Qltb_ge. lra. }
  pose proof (λ a x, count_prefix _ idx a x F1) as P1.
  pose proof (λ a x, count_prefix _ idx a x F2) as P2.
  cbn beta in P1, P2.
  pose proof (count_mono (λ x, Pandas.Qltb x t) (λ x, Qle_bool x t) idx) as Hkm.
  cbn beta in Hkm.
  pose proof (count_le_length (λ x, Qle_bool x t) idx) as Hmn.
  assert (∀ i j x y, idx !! i = Some x → idx !! j = Some y → i ≤ j → (x <= y)%Q)
    as Hord.
  { intros i j x y Hi Hj Hij.
    apply (sorted_lookup_le Qle idx i j); [intros; lra|done..]. }
  destruct (last_is_lookup idx Hne) as (xl & Hlast & Hxl).
  unfold Pandas.get_loc_nearest. rewrite Hu, Ha. cbn [negb].
  unfold Pandas.pad, Pandas.backfill, Pandas.searchsorted, Pandas.below_len.
  set (m := Pandas.count (λ x, Qle_bool x t) idx) in *.
  set (k := Pandas.count (λ x, Pandas.Qltb x t) idx) in *.
  assert (k ≤ m) as Hkm'.
  { apply Hkm. intros x Hx. apply Qltb_lt in Hx. apply Qle_bool_iff. lra. }
  destruct (k <? length idx) eqn:Ek.
  - apply Nat.ltb_lt in Ek.
    destruct (lookup_lt_is_Some_2 idx k Ek) as [xk Hxk].
    assert (t <= xk)%Q as Htk.
    { destruct (Qlt_le_dec xk t) as [Hlt|]; [|done].
      apply Qltb_lt in Hlt. apply (P2 k xk Hxk) in Hlt. lia. }
    assert (∀ a x, idx !! a = Some x → k ≤ a →
                   (Pandas.distance xk t <= Pandas.distance x t)%Q) as Hright.
    { intros a x Hax Hka. apply distance_above; [done|].
      by apply (Hord k a). }
    destruct m as [|m'] eqn:Em; cbn [Pandas.pred_opt Pandas.value_at].
    + rewrite Hlast, Hxk. rewrite pick_by_closer.
      assert (Pandas.Qltb (Pandas.distance xl t) (Pandas.distance xk t) = false)
        as ->.
      { apply Qltb_ge. apply (Hright (length idx - 1) xl Hxl). lia. }
      exists k. split; [done|]. exists xk. split; [done|].
      intros a x Hax. apply (Hright a x Hax). lia.
    + assert (m' < length idx) as Hm' by lia.
      destruct (lookup_lt_is_Some_2 idx m' Hm') as [xm Hxm].
      assert (xm <= t)%Q as Hmt.
      { apply Qle_bool_iff. apply (P1 m' xm Hxm). lia. }
      assert (∀ a x, idx !! a = Some x → a ≤ m' →
                     (Pandas.distance xm t <= Pandas.distance x t)%Q) as Hleft.
      { intros a x Hax Hka. apply distance_below; [|done].
        by apply (Hord a m'). }
      rewrite Hxm, Hxk. rewrite pick_by_closer.
      destruct (Pandas.Qltb (Pandas.distance xm t) (Pandas.distance xk t))
        eqn:Ec.
      * apply Qltb_lt in Ec.
        exists m'. split; [done|]. exists xm. split; [done|].
        intros a x Hax. destruct (decide (a ≤ m')) as [Hle|Hgt].
        -- by apply Hleft with a.
        -- pose proof (Hright a x Hax ltac:(lia)). lra.
      * apply Qltb_ge in Ec.
        exists k. split; [done|]. exists xk. split; [done|].
        intros a x Hax. destruct (decide (a ≤ m')) as [Hle|Hgt].
        -- pose proof (Hleft a x Hax Hle). lra.
        -- apply (Hright a x Hax). lia.
  - apply Nat.ltb_ge in Ek.
    assert (m = length idx) as Em by lia.
    assert (∀ a x, idx !! a = Some x →
                   (Pandas.distance xl t <= Pandas.distance x t)%Q) as Hall.
    { intros a x Hax.
      pose proof (lookup_lt_Some _ _ _ Hax) as Hlt.
      apply distance_below.
      - apply (Hord a (length idx - 1)); [done..|lia].
      - apply Qle_bool_iff. apply (P1 _ _ Hxl). lia. }
    destruct m as [|m'] eqn:Em'; cbn [Pandas.pred_opt Pandas.value_at].
    + destruct idx; [done | cbn in Em; lia].
    + replace m' with (length idx - 1) by lia.
      rewrite Hxl, Hlast. rewrite pick_left_when_no_right.
      exists (length idx - 1). split; [done|]. by exists xl.
Qed.

Lemma descending_two (idx : list Q) : descending idx → 2 ≤ length idx.
Proof.
  unfold descending, Pandas.monotonic.
  destruct idx as [|x [|y rest]]; cbn; [discriminate..|lia].
Qed.

Lemma nearest_descending (idx : list Q) (t : Q) :
  Pandas.is_unique idx = true → descending idx →
  ∃ i, Pandas.get_loc_nearest idx t = Py.Ok i ∧ nearest_at idx t i.
Proof.
  intros Hu Hd.
  pose proof (descending_two idx Hd) as Hlen.
  assert (idx ≠ []) as Hne by (intros ->; cbn in Hlen; lia).
  pose proof (descending_sorted idx Hd) as Hs.
  assert (∀ i j x y, idx !! i = Some x → idx !! j = Some y → i ≤ j → (y <= x)%Q)
    as Hord.
  { intros i j x y Hi Hj Hij.
    apply (sorted_lookup_le (λ x y, (y <= x)%Q) idx i j); [intros; lra|done..]. }
  destruct (last_is_lookup idx Hne) as (xl & Hlast & Hxl).
  unfold Pandas.get_loc_nearest. rewrite Hu, Hd. cbn [negb].
  unfold Pandas.pad, Pandas.backfill.
  destruct (Pandas.find_exact t idx 0) as [p|] eqn:Ef.
  - destruct (find_exact_some t idx 0 p Ef) as (k & x & -> & Hk & Hx).
    cbn [Nat.add Pandas.value_at]. rewrite Hk.
    assert (Qle_bool (Pandas.distance x t) (Pandas.distance x t) = true) as ->.
    { apply Qle_bool_iff. lra. }
    cbn [orb]. exists k. split; [done|]. exists x. split; [done|].
    intros a y Hay. apply distance_zero in Hx.
    pose proof (distance_nonneg y t). lra.
  - pose proof (find_exact_none t idx 0 Ef) as Hno.
    unfold Pandas.searchsorted. rewrite !count_reverse.
    set (g := Pandas.count (λ x, Pandas.Qltb t x) idx).
    assert (length idx - Pandas.count (λ x, Qle_bool x t) idx = g) as ->.
    { pose proof (count_complement (λ x, Qle_bool x t) idx) as Hc.
      cbn beta in Hc. unfold g, Pandas.Qltb. lia. }
    assert (length idx - Pandas.count (λ x, Pandas.Qltb x t) idx = g) as ->.
    { pose proof (count_complement (λ x, Pandas.Qltb x t) idx) as Hc.
      cbn beta in Hc.
      rewrite (count_ext_in (λ x, negb (Pandas.Qltb x t))
                            (λ x, Pandas.Qltb t x)) in Hc; [unfold g; lia|].
      intros x Hx. unfold Pandas.Qltb. rewrite negb_involutive.
      destruct (Qle_bool t x) eqn:E1, (Qle_bool x t) eqn:E2; try done.
      - apply Qle_bool_iff in E1, E2. destruct (Hno x Hx). lra.
      - apply Qle_bool_gt in E1, E2. lra. }
    assert (falls (λ x, Pandas.Qltb t x) idx) as F.
    { apply falls_sorted with (R := λ x y, (y <= x)%Q); [|done].
      intros a b Hab H. apply Qltb_ge in H. apply Qltb_ge. lra. }
    pose proof (λ a x, count_prefix _ idx a x F) as P3. cbn beta in P3.
    fold g in P3.
    assert (∀ a x, idx !! a = Some x → g ≤ a → (x < t)%Q) as Hbelow.
    { intros a x Hax Hga.
      destruct (Qlt_le_dec x t) as [|Hge]; [done|].
      assert (¬ (x == t)%Q) as Hxt.
      { apply Hno. by apply list_elem_of_lookup_2 with a. }
      assert (t < x)%Q as Hgt by lra.
      apply Qltb_lt in Hgt. apply (P3 a x Hax) in Hgt. lia. }
    assert (∀ a x, idx !! a = Some x → a < g → (t < x)%Q) as Habove.
    { intros a x Hax Hga. apply Qltb_lt. by apply (P3 a x Hax). }
    unfold Pandas.below_len.
    destruct (g <? length idx) eqn:Eg.
    + apply Nat.ltb_lt in Eg.
      destruct (lookup_lt_is_Some_2 idx g Eg) as [xg Hxg].
      pose proof (Hbelow g xg Hxg ltac:(lia)) as Hgt.
      assert (∀ a x, idx !! a = Some x → g ≤ a →
                     (Pandas.distance xg t <= Pandas.distance x t)%Q) as Hright.
      { intros a x Hax Hga. apply distance_below; [|lra].
        by apply (Hord g a). }
      destruct g as [|g0] eqn:Eg0; cbn [Pandas.pred_opt Pandas.value_at].
      * rewrite Hlast, Hxg. rewrite pick_by_closer.
        assert (Qle_bool (Pandas.distance xl t) (Pandas.distance xg t) = false)
          as ->.
        { apply Qle_bool_gt.
          pose proof (Hord 0 (length idx - 1) xg xl Hxg Hxl ltac:(lia)) as Hle.
          pose proof (Hbelow _ _ Hxl ltac:(lia)) as Hlt.
          assert (¬ (xg == xl)%Q) as Hdiff.
          { intros Heq.
            pose proof (unique_lookup idx 0 (length idx - 1) xg xl
                          Hu Hxg Hxl Heq). lia. }
          destruct (distance_cases xl t) as [[? El]|[? El]],
                   (distance_cases xg t) as [[? Er]|[? Er]];
            rewrite El, Er; lra. }
        exists 0. split; [done|]. exists xg. split; [done|].
        intros a x Hax. apply (Hright a x Hax). lia.
      * assert (g0 < length idx) as Hg0 by lia.
        destruct (lookup_lt_is_Some_2 idx g0 Hg0) as [xm Hxm].
        pose proof (Habove g0 xm Hxm ltac:(lia)) as Hmt.
        assert (∀ a x, idx !! a = Some x → a ≤ g0 →
                       (Pandas.distance xm t <= Pandas.distance x t)%Q)
          as Hleft.
        { intros a x Hax Hka. apply distance_above; [lra|].
          by apply (Hord a g0). }
        rewrite Hxm, Hxg. rewrite pick_by_closer.
        destruct (Qle_bool (Pandas.distance xm t) (Pandas.distance xg t))
          eqn:Ec.
        -- apply Qle_bool_iff in Ec.
           exists g0. split; [done|]. exists xm. split; [done|].
           intros a x Hax. destruct (decide (a ≤ g0)) as [Hle|Hnle].
           ++ by apply Hleft with a.
           ++ pose proof (Hright a x Hax ltac:(lia)). lra.
        -- apply Qle_bool_gt in Ec.
           exists (S g0). split; [done|]. exists xg. split; [done|].
           intros a x Hax. destruct (decide (a ≤ g0)) as [Hle|Hnle].
           ++ pose proof (Hleft a x Hax Hle). lra.
           ++ apply (Hright a x Hax). lia.
    + apply Nat.ltb_ge in Eg.
      pose proof (count_le_length (λ x, Pandas.Qltb t x) idx) as Hgn.
      fold g in Hgn.
      assert (g = length idx) as Eg' by lia.
      destruct g as [|g0] eqn:Eg0; cbn [Pandas.pred_opt Pandas.value_at];
        [lia|].
      replace g0 with (length idx - 1) by lia.
      rewrite Hxl, Hlast. rewrite pick_left_when_no_right.
      exists (length idx - 1). split; [done|]. exists xl. split; [done|].
      intros a x Hax.
      pose proof (lookup_lt_Some _ _ _ Hax) as Hlt.
      apply distance_above.
      * pose proof (Habove (length idx - 1) xl Hxl ltac:(lia)). lra.
      * apply (Hord a (length idx - 1)); [done..|lia].
Qed.

(** On a unique, monotonic, non-empty index the nearest lookup returns a
    position, its label is as close to the target as any label, and a label
    equal to the target is the one returned. *)
Lemma nearest_total (idx : list Q) (d : Pandas.direction) (t : Q) :
  Pandas.is_unique idx = true → Pandas.monotonic idx = Some d → idx ≠ [] →
  ∃ i, Pandas.get_loc_nearest idx t = Py.Ok i ∧ nearest_at idx t i.
Proof.
  intros Hu Hd Hne. destruct d.
  - by apply nearest_ascending.
  - by apply nearest_descending.
Qed.

Lemma nearest_exact (idx : list Q) (t : Q) (i p : nat) (x : Q) :
  Pandas.is_unique idx = true →
  nearest_at idx t i → idx !! p = Some x → (x == t)%Q → i = p.
Proof.
  intros Hu (xi & Hi & Hmin) Hp Hx.
  apply (unique_lookup idx i p xi x Hu Hi Hp).
  pose proof (Hmin p x Hp) as Hle.
  apply distance_zero in Hx.
  assert (Pandas.distance xi t <= 0)%Q as H0 by lra.
  apply distance_zero in H0. apply distance_zero in Hx. lra.
Qed.

Lemma closer_squared (xi x t : Q) :
  (Pandas.distance xi t <= Pandas.distance x t)%Q →
  ((xi - t) * (xi - t) <= (x - t) * (x - t))%Q.
Proof.
  intros H.
  destruct (distance_cases xi t) as [[? E1]|[? E1]],
           (distance_cases x t) as [[? E2]|[? E2]];
    rewrite E1, E2 in H; nra.
Qed.

(** * Sampling at a location *)

(** C6.  On a grid (each axis of distinct labels in one direction), the
    nearest-neighbour selection of cell 33 returns, for every requested
    pair, the series of one grid cell (i, j): the entries stored for that
    cell at every time, unchanged.  The cell's longitude and latitude are
    each as close to the request as any label of the axis, so no grid cell
    is closer to the requested point; when the request coincides with a
    grid longitude and a grid latitude, (i, j) is exactly that cell. *)
Theorem nearest_neighbour_sampling
  (air_temp : Xarray.DataArray) (lon lat : Q) :
  grid_axis (Xarray.da_lon air_temp) →
  grid_axis (Xarray.da_lat air_temp) →
  ∃ i j pt series,
    Cell33.select air_temp lon lat = Py.Ok pt
    ∧ Xarray.da_lon air_temp !! j = Some (Xarray.pt_lon pt)
    ∧ Xarray.da_lat air_temp !! i = Some (Xarray.pt_lat pt)
    ∧ Xarray.pt_time0 pt = Xarray.da_time0 air_temp
    ∧ Xarray.pt_vars pt !! Xarray.da_name air_temp = Some series
    ∧ (∀ st t, series st t
               = Xarray.values (Xarray.da_variable air_temp) st t i j)
    ∧ (∀ p x, Xarray.da_lon air_temp !! p = Some x → (x == lon)%Q → j = p)
    ∧ (∀ p y, Xarray.da_lat air_temp !! p = Some y → (y == lat)%Q → i = p)
    ∧ nearest_at (Xarray.da_lon air_temp) lon j
    ∧ nearest_at (Xarray.da_lat air_temp) lat i
    ∧ (∀ a b x y,
         Xarray.da_lon air_temp !! a = Some x →
         Xarray.da_lat air_temp !! b = Some y →
         ((Xarray.pt_lon pt - lon) * (Xarray.pt_lon pt - lon)
          + (Xarray.pt_lat pt - lat) * (Xarray.pt_lat pt - lat)
          <= (x - lon) * (x - lon) + (y - lat) * (y - lat))%Q).
Proof.
  intros (Hux & [dx Hdx] & Hnx) (Huy & [dy Hdy] & Hny).
  destruct (nearest_total _ dx lon Hux Hdx Hnx) as (j & Hj & Nj).
  destruct (nearest_total _ dy lat Huy Hdy Hny) as (i & Hi & Ni).
  pose proof Nj as (xj & Hxj & Mj). pose proof Ni as (yi & Hyi & Mi).
  exists i, j. eexists. eexists.
  unfold Cell33.select, Xarray.sel_nearest, Xarray.to_dataset.
  cbn [Xarray.lon Xarray.lat Xarray.time0 Xarray.data_vars].
  rewrite Hj, Hi, Hxj, Hyi.
  cbn [default Xarray.pt_lon Xarray.pt_lat Xarray.pt_time0 Xarray.pt_vars].
  split; [reflexivity|].
  split; [reflexivity|]. split; [reflexivity|]. split; [reflexivity|].
  split.
  { rewrite map_fmap_singleton. apply lookup_singleton_eq. }
  split; [reflexivity|].
  split; [intros p x Hp Hx; by apply (nearest_exact _ lon j p x Hux Nj)|].
  split; [intros p y Hp Hy; by apply (nearest_exact _ lat i p y Huy Ni)|].
  split; [done|]. split; [done|].
  intros a b x y Ha Hb.
  apply Qplus_le_compat.
  - apply closer_squared, (Mj a x Ha).
  - apply closer_squared, (Mi b y Hb).
Qed.

Lemma example_lon_axis : grid_axis (Xarray.da_lon example_air_temp).
Proof. split; [reflexivity|]. split; [by eexists | discriminate]. Qed.

Lemma example_lat_axis : grid_axis (Xarray.da_lat example_air_temp).
Proof. split; [reflexivity|]. split; [by eexists | discriminate]. Qed.

Lemma nearest_neighbour_sampling_witness :
  ∃ pt series,
    Cell33.select example_air_temp 230 40 = Py.Ok pt
    ∧ Xarray.pt_vars pt !! "air_temperature_at_2_metres" = Some series
    ∧ ∀ st t, series st t = Xarray.values example_t2m st t 2 2.
Proof.
  destruct (nearest_neighbour_sampling example_air_temp 230 40
              example_lon_axis example_lat_axis)
    as (i & j & pt & series & Hsel & _ & _ & _ & Hv & Hs & Hj & Hi & _).
  exists pt, series. split; [exact Hsel|]. split; [exact Hv|].
  intros st t. rewrite (Hs st t).
  rewrite (Hj 2 230%Q eq_refl ltac:(reflexivity)).
  rewrite (Hi 2 40%Q eq_refl ltac:(reflexivity)).
  reflexivity.
Defined.

Example select_santa_barbara :
  match Cell33.select example_air_temp (2403018 # 10000) (344208 # 10000) with
  | Py.Ok pt =>
      Xarray.pt_lon pt = 230%Q ∧ Xarray.pt_lat pt = 30%Q
      ∧ (λ s, s example_store 1) <$> Xarray.pt_vars pt !! Cell17.t2m
        = entry example_ds Cell17.t2m example_store 1 3 2
  | Py.Raise _ => False
  end.
Proof. vm_compute. repeat split. Qed.

(** a request half-way between two labels goes to the larger one, in both
    directions *)
Example nearest_ties :
  Pandas.get_loc_nearest [10; 20; 30]%Q 15 = Py.Ok 1
  ∧ Pandas.get_loc_nearest [30; 20; 10]%Q 15 = Py.Ok 1
  ∧ Pandas.get_loc_nearest [30; 20; 10]%Q 35 = Py.Ok 0
  ∧ Pandas.get_loc_nearest [30; 20; 10]%Q 5 = Py.Ok 2
  ∧ Pandas.get_loc_nearest [10; 20; 30]%Q 5 = Py.Ok 0
  ∧ Pandas.get_loc_nearest [10; 20; 30]%Q 35 = Py.Ok 2.
Proof. vm_compute. repeat split. Qed.

(** * The cells in sequence, on the small grid *)

Example notebook_on_example :
  match Cell15.cell15 example_ds with
  | Py.Ok boxed =>
      match Cell17.cell17 boxed with
      | (Py.Ok tt, ds) =>
          match Cell19.cell25 ds example_store with
          | Py.Ok air_temp =>
              Xarray.da_lat air_temp = [50; 40; 30]%Q
              ∧ Xarray.da_lon air_temp = [220; 230; 255]%Q
              ∧ units_of ds Cell17.t2m = Some "C"
              ∧ Cell19.cell27 air_temp example_store 0 0
                = (-0x1.74cccccccccc0p+3)%float
              ∧ match Cell33.select air_temp 240 34 with
                | Py.Ok pt =>
                    Xarray.pt_lon pt = 230%Q ∧ Xarray.pt_lat pt = 30%Q
                | Py.Raise _ => False
                end
          | Py.Raise _ => False
          end
      | _ => False
      end
  | Py.Raise _ => False
  end.
Proof. vm_compute. repeat split. Qed.

(** * The loop of cell 10 as a whole *)

Lemma cell10_is_loop (date : Datetime.date) :
  Cell10.cell10 date = fetch_loop date Cell10.var_list.
Proof. reflexivity. Qed.

Lemma body_fetch (date : Datetime.date) (var : string) (w : World) :
  Cell10.body date var w
  = Cell10.fetch (key_for date var) (file_for date var) w.
Proof. reflexivity. Qed.

(** Every way a guarded fetch can end. *)
Lemma fetch_cases (key path : string) (w : World) :
  (∃ c, fs w !! path = Some c ∧ Cell10.fetch key path w = (Py.Ok tt, w))
  ∨ (∃ body, fs w !! path = None
             ∧ objects w !! (era5_bucket, key) = Some body
             ∧ Cell10.fetch key path w
               = (Py.Ok tt, after_download key path w body))
  ∨ (fs w !! path = None
     ∧ objects w !! (era5_bucket, key) = None
     ∧ Cell10.fetch key path w
       = (Py.Raise (Py.ClientError "404 Not Found"),
          mkWorld (fs w) (objects w) (transfers w)
            (stdout w ++ [Str.percent_s "Downloading %s from S3..." key]))).
Proof.
  destruct (fs w !! path) as [c|] eqn:Hp.
  - left. exists c. split; [done|]. by apply fetch_present with c.
  - destruct (objects w !! (era5_bucket, key)) as [body|] eqn:Hobj.
    + right. left. exists body. split; [done|]. split; [done|].
      by apply fetch_absent.
    + right. right. split; [done|]. split; [done|].
      unfold Cell10.fetch, Py.bind. rewrite (isfile_absent path w Hp). cbn.
      unfold Boto3.download_file. cbn. by rewrite Hobj.
Qed.

(** What a guarded fetch cannot do, however it ends. *)
Lemma fetch_frame (key path : string) (w w' : World) (r : Py.outcome unit) :
  Cell10.fetch key path w = (r, w') →
  objects w' = objects w
  ∧ (∀ p c, fs w !! p = Some c → fs w' !! p = Some c)
  ∧ (∀ p, p ≠ path → fs w' !! p = fs w !! p)
  ∧ (transfers w' = transfers w
     ∨ (fs w !! path = None
        ∧ transfers w' = (transfers w ++ [(era5_bucket, key, path)])%list)).
Proof.
  intros Hrun.
  destruct (fetch_cases key path w)
    as [(c & Hp & E)|[(body & Hp & Hobj & E)|(Hp & Hobj & E)]];
    rewrite E in Hrun; injection Hrun as <- <-; cbn.
  - repeat split; auto.
  - split; [done|]. split; [|split].
    + intros p c Hc. rewrite lookup_insert_ne; [done|]. congruence.
    + intros p Hne. by rewrite lookup_insert_ne.
    + right. by split.
  - repeat split; auto.
Qed.

Section Loop.

Variable date : Datetime.date.

(** The loop keeps the bucket and every file that was there, and logs only
    transfers of variables whose file was not there. *)
Lemma loop_frame (vars : list string) (w w' : World) (r : Py.outcome unit) :
  fetch_loop date vars w = (r, w') →
  objects w' = objects w
  ∧ (∀ p c, fs w !! p = Some c → fs w' !! p = Some c)
  ∧ (∀ p, (∀ v, v ∈ vars → p ≠ file_for date v) → fs w' !! p = fs w !! p)
  ∧ ∃ new,
      transfers w' = (transfers w ++ new)%list
      ∧ length new ≤ length vars
      ∧ ∀ tr, tr ∈ new →
          ∃ v, v ∈ vars ∧ tr = transfer_for date v
               ∧ fs w !! file_for date v = None.
Proof.
  revert w. induction vars as [|v vars IH]; intros w Hrun.
  - injection Hrun as <- <-. repeat split; auto.
    exists []. rewrite app_nil_r. repeat split; [cbn; lia|].
    intros tr Htr. by apply not_elem_of_nil in Htr.
  - unfold fetch_loop in Hrun. cbn in Hrun. unfold Py.bind in Hrun.
    rewrite body_fetch in Hrun.
    destruct (Cell10.fetch (key_for date v) (file_for date v) w)
      as [r1 w1] eqn:E1.
    destruct (fetch_frame _ _ _ _ _ E1) as (Ho1 & Hk1 & Hf1 & Ht1).
    assert (∃ new1, transfers w1 = (transfers w ++ new1)%list
                    ∧ length new1 ≤ 1
                    ∧ ∀ tr, tr ∈ new1 →
                        tr = transfer_for date v
                        ∧ fs w !! file_for date v = None) as (new1 & Hn1 & Hl1 & Hin1).
    { destruct Ht1 as [Ht1|[Hnone Ht1]].
      - exists []. rewrite app_nil_r. split; [done|]. split; [cbn; lia|].
        intros tr Htr. by apply not_elem_of_nil in Htr.
      - exists [transfer_for date v]. split; [done|]. split; [cbn; lia|].
        intros tr Htr. apply list_elem_of_singleton in Htr as ->. by split. }
    destruct r1 as [[]|e].
    + destruct (IH w1 Hrun) as (Ho & Hk & Hf & new & Hn & Hl & Hin).
      split; [congruence|]. split; [auto|]. split.
      { intros p Hp. rewrite Hf, Hf1; [done|..].
        - apply Hp. by left.
        - intros u Hu. apply Hp. by right. }
      exists (new1 ++ new)%list. split; [by rewrite Hn, Hn1, app_assoc|].
      split; [rewrite length_app; cbn; lia|].
      intros tr Htr. apply elem_of_app in Htr as [Htr|Htr].
      * destruct (Hin1 tr Htr) as [-> Hnone]. exists v. split; [by left|done].
      * destruct (Hin tr Htr) as (u & Hu & -> & Hnone).
        exists u. split; [by right|]. split; [done|].
        destruct (fs w !! file_for date u) as [c|] eqn:Ec; [|done].
        rewrite (Hk1 _ _ Ec) in Hnone. discriminate.
    + injection Hrun as <- <-.
      split; [done|]. split; [done|]. split.
      { intros p Hp. apply Hf1. apply Hp. by left. }
      exists new1. split; [done|]. split; [cbn; lia|].
      intros tr Htr. destruct (Hin1 tr Htr) as [-> Hnone].
      exists v. split; [by left|done].
Qed.

(** After a completed loop the file of every variable is there. *)
Lemma loop_leaves_files (vars : list string) (w w' : World) :
  fetch_loop date vars w = (Py.Ok tt, w') →
  ∀ v, v ∈ vars → is_Some (fs w' !! file_for date v).
Proof.
  revert w. induction vars as [|v vars IH]; intros w Hrun u Hu.
  - by apply not_elem_of_nil in Hu.
  - unfold fetch_loop in Hrun. cbn in Hrun. unfold Py.bind in Hrun.
    rewrite body_fetch in Hrun.
    destruct (Cell10.fetch (key_for date v) (file_for date v) w)
      as [r1 w1] eqn:E1.
    destruct r1 as [[]|e]; [|discriminate].
    apply elem_of_cons in Hu as [->|Hu].
    + destruct (fetch_leaves_file _ _ _ _ E1) as [c Hc].
      destruct (loop_frame vars w1 w' _ Hrun) as (_ & Hk & _).
      exists c. by apply Hk.
    + by apply (IH w1).
Qed.

Lemma loop_all_present (vars : list string) (w : World) :
  (∀ v, v ∈ vars → is_Some (fs w !! file_for date v)) →
  fetch_loop date vars w = (Py.Ok tt, w).
Proof.
  induction vars as [|v vars IH]; intros Hall; [done|].
  unfold fetch_loop. cbn. unfold Py.bind. rewrite body_fetch.
  destruct (Hall v) as [c Hc]; [by left|].
  rewrite (fetch_present _ _ w c Hc).
  apply IH. intros u Hu. apply Hall. by right.
Qed.

End Loop.

(** X1.  Rerunning the download loop after it has completed changes nothing:
    no transfer, no print, the same world.  This holds for every date, every
    list of variables and every world the first run started from. *)
Theorem fetch_loop_idempotent
  (date : Datetime.date) (vars : list string) (w w' : World) :
  fetch_loop date vars w = (Py.Ok tt, w') →
  fetch_loop date vars w' = (Py.Ok tt, w').
Proof.
  intros Hrun. apply loop_all_present. by apply loop_leaves_files with w.
Qed.

Lemma fetch_loop_idempotent_witness :
  fetch_loop date_2017_01 Cell10.var_list
    (fetch_loop date_2017_01 Cell10.var_list fresh_world).2
  = (Py.Ok tt, (fetch_loop date_2017_01 Cell10.var_list fresh_world).2).
Proof.
  apply (fetch_loop_idempotent date_2017_01 Cell10.var_list fresh_world).
  vm_compute. reflexivity.
Defined.

(** X2.  However the download loop ends, completed or stopped by an error,
    it has not changed the bucket, every file that was in the working
    directory is still there with the same content, files that no variable
    names are untouched, and the transfers it logged, at most one per
    variable, are all of variables whose local file was missing when the
    loop started. *)
Theorem fetch_loop_never_overwrites
  (date : Datetime.date) (vars : list string) (w w' : World)
  (r : Py.outcome unit) :
  fetch_loop date vars w = (r, w') →
  objects w' = objects w
  ∧ (∀ p c, fs w !! p = Some c → fs w' !! p = Some c)
  ∧ (∀ p, (∀ v, v ∈ vars → p ≠ file_for date v) → fs w' !! p = fs w !! p)
  ∧ ∃ new,
      transfers w' = (transfers w ++ new)%list
      ∧ length new ≤ length vars
      ∧ ∀ tr, tr ∈ new →
          ∃ v, v ∈ vars ∧ tr = transfer_for date v
               ∧ fs w !! file_for date v = None.
Proof. apply loop_frame. Qed.

Lemma fetch_loop_never_overwrites_witness :
  fs (fetch_loop date_2017_01 Cell10.var_list stale_world).2 !! "main.nc"
  = Some "stale".
Proof.
  destruct (fetch_loop_never_overwrites date_2017_01 Cell10.var_list
              stale_world
              (fetch_loop date_2017_01 Cell10.var_list stale_world).2
              (fetch_loop date_2017_01 Cell10.var_list stale_world).1)
    as (_ & Hkeep & _).
  - apply surjective_pairing.
  - apply Hkeep. reflexivity.
Defined.

(** * Names never collide *)

Lemma string_length_append (s t : string) :
  String.length (s ++ t) = String.length s + String.length t.
Proof.
  induction s as [|c s IH]; [done|].
  change (S (String.length (s ++ t)) = S (String.length s + String.length t)).
  by rewrite IH.
Qed.

Lemma append_inv_head (s t1 t2 : string) : s ++ t1 = s ++ t2 → t1 = t2.
Proof.
  induction s as [|c s IH]; [done|].
  change (String c (s ++ t1) = String c (s ++ t2) → t1 = t2).
  intros H. injection H. auto.
Qed.

(** two splits of one string at the same position are the same split *)
Lemma append_split (s1 s2 t1 t2 : string) :
  String.length s1 = String.length s2 →
  s1 ++ t1 = s2 ++ t2 → s1 = s2 ∧ t1 = t2.
Proof.
  revert s2. induction s1 as [|c s1 IH]; intros [|c2 s2] Hlen H;
    try discriminate.
  - done.
  - change (String c (s1 ++ t1) = String c2 (s2 ++ t2)) in H.
    injection H as -> H. injection Hlen as Hlen.
    destruct (IH s2 Hlen H) as [-> ->]. done.
Qed.

Lemma append_inv_tail (t s1 s2 : string) : s1 ++ t = s2 ++ t → s1 = s2.
Proof.
  intros H. apply (append_split s1 s2 t t); [|done].
  apply (f_equal String.length) in H.
  rewrite !string_length_append in H. lia.
Qed.

Lemma file_for_inj (date : Datetime.date) (v1 v2 : string) :
  file_for date v1 = file_for date v2 → v1 = v2.
Proof.
  unfold file_for. intros H.
  do 3 apply append_inv_head in H.
  by apply append_inv_tail in H.
Qed.

Lemma key_for_inj (date : Datetime.date) (v1 v2 : string) :
  key_for date v1 = key_for date v2 → v1 = v2.
Proof.
  unfold key_for. intros H.
  do 4 apply append_inv_head in H.
  by apply append_inv_tail in H.
Qed.

Lemma for_each_app {S A} (xs ys : list A) (body : A → Py.M S unit) (s : S) :
  Py.for_each (xs ++ ys) body s
  = match Py.for_each xs body s with
    | (Py.Ok _, s1) => Py.for_each ys body s1
    | (Py.Raise e, s1) => (Py.Raise e, s1)
    end.
Proof.
  revert s. induction xs as [|x xs IH]; intros s; cbn; [done|].
  unfold Py.bind. destruct (body x s) as [[u|e] s1]; [apply IH | done].
Qed.

Section Missing.

Variable date : Datetime.date.

Lemma to_fetch_ext (vars : list string) (w w1 : World) :
  (∀ v, v ∈ vars → fs w1 !! file_for date v = fs w !! file_for date v) →
  to_fetch date w1 vars = to_fetch date w vars.
Proof.
  unfold to_fetch.
  induction vars as [|v vars IH]; intros H; [done|].
  cbn [List.filter]. rewrite (H v) by left.
  rewrite IH; [done|]. intros u Hu. apply H. by right.
Qed.

Lemma to_fetch_cons (v : string) (vars : list string) (w : World) :
  to_fetch date w (v :: vars)
  = if bool_decide (fs w !! file_for date v = None)
    then v :: to_fetch date w vars else to_fetch date w vars.
Proof. reflexivity. Qed.

(** With every needed object in the bucket, the loop downloads exactly the
    variables whose file is missing, in order. *)
Lemma loop_fetches_missing (vars : list string) (w : World) :
  NoDup vars →
  (∀ v, v ∈ vars → fs w !! file_for date v = None →
        is_Some (objects w !! (era5_bucket, key_for date v))) →
  ∃ w',
    fetch_loop date vars w = (Py.Ok tt, w')
    ∧ transfers w'
      = (transfers w ++ (transfer_for date <$> to_fetch date w vars))%list
    ∧ ∀ v, v ∈ vars →
        fs w' !! file_for date v
        = match fs w !! file_for date v with
          | Some c => Some c
          | None => objects w !! (era5_bucket, key_for date v)
          end.
Proof.
  revert w. induction vars as [|v vars IH]; intros w Hnd Hav.
  - exists w. split; [done|]. split; [cbn; by rewrite app_nil_r|].
    intros v Hv. by apply not_elem_of_nil in Hv.
  - apply NoDup_cons in Hnd as [Hv Hnd].
    unfold fetch_loop. cbn [Py.for_each]. unfold Py.bind. rewrite body_fetch.
    rewrite to_fetch_cons.
    destruct (fs w !! file_for date v) as [c|] eqn:Hp.
    + rewrite (fetch_present _ _ w c Hp).
      destruct (IH w Hnd) as (w' & Hrun & Htr & Hfs).
      { intros u Hu. apply Hav. by right. }
      exists w'. split; [exact Hrun|]. split.
      * rewrite Htr. by rewrite bool_decide_eq_false_2.
      * intros u Hu. apply elem_of_cons in Hu as [->|Hu]; [|by apply Hfs].
        rewrite Hp.
        destruct (loop_frame date vars w w' _ Hrun) as (_ & Hk & _).
        by apply Hk.
    + destruct (Hav v ltac:(by left) Hp) as [body Hobj].
      rewrite (fetch_absent _ _ w body Hp Hobj).
      set (w1 := after_download (key_for date v) (file_for date v) w body).
      assert (∀ u, u ∈ vars →
                   fs w1 !! file_for date u = fs w !! file_for date u) as Hsame.
      { intros u Hu. cbn. apply lookup_insert_ne.
        intros Heq. apply file_for_inj in Heq. by subst. }
      destruct (IH w1 Hnd) as (w' & Hrun & Htr & Hfs).
      { intros u Hu Hnone. rewrite (Hsame u Hu) in Hnone.
        apply Hav; [by right | done]. }
      exists w'. split; [exact Hrun|]. split.
      * rewrite Htr. rewrite (to_fetch_ext vars w w1 Hsame).
        rewrite bool_decide_eq_true_2 by done.
        rewrite fmap_cons. unfold w1. cbn [transfers after_download].
        by rewrite <- app_assoc.
      * intros u Hu. apply elem_of_cons in Hu as [->|Hu].
        -- rewrite Hp, Hobj.
           destruct (loop_frame date vars w1 w' _ Hrun) as (_ & Hk & _).
           apply Hk. cbn. apply lookup_insert_eq.
        -- rewrite (Hfs u Hu). by rewrite (Hsame u Hu).
Qed.

End Missing.

(** X3.  When the bucket holds the object of every variable whose local file
    is missing, the download loop over distinct variables completes, logs
    exactly one transfer for each missing file and none for the others, in
    the order of the list, and leaves each variable's file holding what it
    held before or, if it was missing, the bucket's object. *)
Theorem fetch_loop_fetches_missing
  (date : Datetime.date) (vars : list string) (w : World) :
  NoDup vars →
  (∀ v, v ∈ vars → fs w !! file_for date v = None →
        is_Some (objects w !! (era5_bucket, key_for date v))) →
  ∃ w',
    fetch_loop date vars w = (Py.Ok tt, w')
    ∧ transfers w'
      = (transfers w ++ (transfer_for date <$> to_fetch date w vars))%list
    ∧ ∀ v, v ∈ vars →
        fs w' !! file_for date v
        = match fs w !! file_for date v with
          | Some c => Some c
          | None => objects w !! (era5_bucket, key_for date v)
          end.
Proof. apply loop_fetches_missing. Qed.

Lemma var_list_distinct : NoDup Cell10.var_list.
Proof.
  apply NoDup_cons. split; [|apply NoDup_singleton].
  intros H. apply list_elem_of_singleton in H. discriminate.
Qed.

Lemma fetch_loop_fetches_missing_witness :
  ∃ w',
    Cell10.cell10 date_2017_01 fresh_world = (Py.Ok tt, w')
    ∧ length (transfers w') = 2
    ∧ fs w' !! "201701_air_pressure_at_mean_sea_level.nc" = Some "msl".
Proof.
  destruct (fetch_loop_fetches_missing date_2017_01 Cell10.var_list fresh_world
              var_list_distinct)
    as (w' & Hrun & Htr & Hfs).
  - intros v Hv _.
    apply elem_of_cons in Hv as [->|Hv]; [by eexists|].
    apply elem_of_cons in Hv as [->|Hv]; [by eexists|].
    by apply not_elem_of_nil in Hv.
  - exists w'. split; [exact Hrun|]. split.
    + rewrite Htr. reflexivity.
    + apply (Hfs Cell10.var2). right. left.
Defined.

(** X4.  The loop stops at the first variable whose file is missing and
    whose object is not in the bucket: it raises the client's error, keeps
    what it downloaded for the variables before it, and neither transfers
    nor touches the file of that variable or of any variable after it. *)
Theorem fetch_loop_stops_at_missing_object
  (date : Datetime.date) (before after : list string) (v : string) (w : World) :
  NoDup (before ++ v :: after) →
  (∀ u, u ∈ before → fs w !! file_for date u = None →
        is_Some (objects w !! (era5_bucket, key_for date u))) →
  fs w !! file_for date v = None →
  objects w !! (era5_bucket, key_for date v) = None →
  ∃ w',
    fetch_loop date (before ++ v :: after) w
    = (Py.Raise (Py.ClientError "404 Not Found"), w')
    ∧ transfers w'
      = (transfers w ++ (transfer_for date <$> to_fetch date w before))%list
    ∧ (∀ u, u ∈ before → is_Some (fs w' !! file_for date u))
    ∧ (∀ u, u ∈ v :: after → fs w' !! file_for date u = fs w !! file_for date u).
Proof.
  intros Hnd Hav Hp Hobj.
  apply NoDup_app in Hnd as (Hnd1 & Hdisj & Hnd2).
  destruct (loop_fetches_missing date before w Hnd1 Hav)
    as (w1 & Hrun1 & Htr1 & Hfs1).
  destruct (loop_frame date before w w1 _ Hrun1) as (Ho1 & Hk1 & Hf1 & _).
  assert (∀ u, u ∈ v :: after →
               fs w1 !! file_for date u = fs w !! file_for date u) as Hrest.
  { intros u Hu. apply Hf1. intros x Hx Heq.
    apply file_for_inj in Heq. subst. by apply (Hdisj x). }
  unfold fetch_loop. rewrite for_each_app.
  fold (fetch_loop date before). rewrite Hrun1.
  cbn [Py.for_each]. unfold Py.bind. rewrite body_fetch.
  destruct (fetch_cases (key_for date v) (file_for date v) w1)
    as [(c & Hc & _)|[(body & _ & Hb & _)|(_ & _ & E)]].
  - rewrite (Hrest v) in Hc by left. congruence.
  - rewrite Ho1 in Hb. congruence.
  - rewrite E. eexists. split; [reflexivity|]. cbn.
    split; [done|]. split; [|done].
    intros u Hu. by apply (loop_leaves_files date before w w1 Hrun1).
Qed.

Lemma fetch_loop_stops_at_missing_object_witness :
  ∃ w',
    Cell10.cell10 date_2017_01 world_without_pressure
    = (Py.Raise (Py.ClientError "404 Not Found"), w')
    ∧ length (transfers w') = 1
    ∧ fs w' !! "201701_air_pressure_at_mean_sea_level.nc" = None.
Proof.
  destruct (fetch_loop_stops_at_missing_object date_2017_01
              [Cell10.var1] [] Cell10.var2 world_without_pressure)
    as (w' & Hrun & Htr & _ & Hrest).
  - exact var_list_distinct.
  - intros u Hu _. apply list_elem_of_singleton in Hu as ->. by eexists.
  - reflexivity.
  - reflexivity.
  - exists w'. split; [exact Hrun|]. split.
    + rewrite Htr. reflexivity.
    + etrans; [exact (Hrest Cell10.var2 ltac:(left))|reflexivity].
Defined.

Lemma years_print_back :
  forallb (prints_back 1 4) (seq 1000 (9 * 1000)) = true.
Proof. vm_compute. reflexivity. Qed.

Lemma months_print_back : forallb (prints_back 2 2) (seq 1 12) = true.
Proof. vm_compute. reflexivity. Qed.

Lemma four_digit_year (d : Datetime.date) :
  four_digit_date d →
  String.length (Datetime.strftime_Y d) = 4
  ∧ read_decimal (Datetime.strftime_Y d) 0 = Datetime.year d.
Proof.
  intros [Hy _].
  pose proof years_print_back as H. rewrite forallb_forall in H.
  specialize (H (Datetime.year d)).
  assert (In (Datetime.year d) (seq 1000 (9 * 1000))) as Hin.
  { apply in_seq. lia. }
  apply H in Hin. unfold prints_back in Hin.
  apply andb_true_iff in Hin as [H1 H2].
  apply Nat.eqb_eq in H1, H2. by split.
Qed.

Lemma two_digit_month (d : Datetime.date) :
  four_digit_date d →
  String.length (Datetime.strftime_m d) = 2
  ∧ read_decimal (Datetime.strftime_m d) 0 = Datetime.month d.
Proof.
  intros [_ Hm].
  pose proof months_print_back as H. rewrite forallb_forall in H.
  specialize (H (Datetime.month d)).
  assert (In (Datetime.month d) (seq 1 12)) as Hin.
  { apply in_seq. lia. }
  apply H in Hin. unfold prints_back in Hin.
  apply andb_true_iff in Hin as [H1 H2].
  apply Nat.eqb_eq in H1, H2. by split.
Qed.

Lemma same_prefix (d1 d2 : Datetime.date) (t1 t2 : string) :
  four_digit_date d1 → four_digit_date d2 →
  Datetime.strftime_Y d1 ++ t1 = Datetime.strftime_Y d2 ++ t2 →
  Datetime.year d1 = Datetime.year d2 ∧ t1 = t2.
Proof.
  intros H1 H2 Heq.
  destruct (four_digit_year d1 H1) as [L1 R1].
  destruct (four_digit_year d2 H2) as [L2 R2].
  assert (String.length (Datetime.strftime_Y d1)
          = String.length (Datetime.strftime_Y d2)) as HL by congruence.
  destruct (append_split _ _ _ _ HL Heq) as [EY ->].
  split; [|done]. rewrite <- R1, <- R2. by rewrite EY.
Qed.

Lemma same_month (d1 d2 : Datetime.date) (t1 t2 : string) :
  four_digit_date d1 → four_digit_date d2 →
  Datetime.strftime_m d1 ++ t1 = Datetime.strftime_m d2 ++ t2 →
  Datetime.month d1 = Datetime.month d2 ∧ t1 = t2.
Proof.
  intros H1 H2 Heq.
  destruct (two_digit_month d1 H1) as [L1 R1].
  destruct (two_digit_month d2 H2) as [L2 R2].
  assert (String.length (Datetime.strftime_m d1)
          = String.length (Datetime.strftime_m d2)) as HL by congruence.
  destruct (append_split _ _ _ _ HL Heq) as [EM ->].
  split; [|done]. rewrite <- R1, <- R2. by rewrite EM.
Qed.

(** X5.  The names cell 10 builds never collide.  For dates with a
    four-digit year, two (year, month, variable) triples that get the same
    local file name, or the same object key, are the same triple; so files
    of different months or of different variables never overwrite each
    other. *)
Theorem names_never_collide
  (d1 d2 : Datetime.date) (v1 v2 : string) :
  four_digit_date d1 → four_digit_date d2 →
  Cell10.data_file (Datetime.strftime_Y d1) (Datetime.strftime_m d1) v1
  = Cell10.data_file (Datetime.strftime_Y d2) (Datetime.strftime_m d2) v2
  ∨ Cell10.s3_data_key (Datetime.strftime_Y d1) (Datetime.strftime_m d1) v1
    = Cell10.s3_data_key (Datetime.strftime_Y d2) (Datetime.strftime_m d2) v2 →
  Datetime.year d1 = Datetime.year d2
  ∧ Datetime.month d1 = Datetime.month d2
  ∧ v1 = v2.
Proof.
  intros H1 H2 [Heq|Heq].
  - rewrite !data_file_eq in Heq. injection Heq as Heq.
    destruct (same_prefix d1 d2 _ _ H1 H2 Heq) as [EY Heq1].
    destruct (same_month d1 d2 _ _ H1 H2 Heq1) as [EM Heq2].
    apply append_inv_head in Heq2. apply append_inv_tail in Heq2. done.
  - rewrite !s3_data_key_eq in Heq. injection Heq as Heq.
    destruct (same_prefix d1 d2 _ _ H1 H2 Heq) as [EY Heq1].
    apply append_inv_head in Heq1.
    destruct (same_month d1 d2 _ _ H1 H2 Heq1) as [EM Heq2].
    apply append_inv_head in Heq2. apply append_inv_tail in Heq2. done.
Qed.

Lemma names_never_collide_witness :
  Datetime.year date_2017_01 = 2017
  ∧ Datetime.month date_2017_01 = 1
  ∧ Cell10.var1 = "air_temperature_at_2_metres".
Proof.
  apply (names_never_collide date_2017_01 (Datetime.Date 2017 1 31)
           Cell10.var1 "air_temperature_at_2_metres").
  - split; cbn; lia.
  - split; cbn; lia.
  - left. reflexivity.
Defined.

(** * The metadata file and the data files stay apart *)

Lemma digits_head (fuel n width : nat) (acc : string) :
  fuel ≠ 0 →
  ∃ k rest, Datetime.digits fuel n width acc = String (Datetime.digit k) rest.
Proof.
  revert n width acc. induction fuel as [|fuel IH]; intros n width acc Hf; [done|].
  cbn [Datetime.digits].
  destruct ((n <? 10) && (width <=? 1)); [by eexists _, _|].
  destruct fuel as [|fuel']; [by eexists _, _|].
  apply IH. done.
Qed.

Lemma digit_not_m (k : nat) : Datetime.digit k ≠ "m"%char.
Proof.
  unfold Datetime.digit. intros H.
  apply (f_equal nat_of_ascii) in H.
  rewrite nat_ascii_embedding in H.
  - change (nat_of_ascii "m") with 109 in H.
    pose proof (Nat.mod_upper_bound k 10). lia.
  - pose proof (Nat.mod_upper_bound k 10). lia.
Qed.

Lemma file_for_not_metadata (date : Datetime.date) (var : string) :
  file_for date var ≠ Cell8.metadata_file.
Proof.
  unfold file_for, Datetime.strftime_Y, Datetime.decimal.
  destruct (digits_head (S (Datetime.year date) + 1) (Datetime.year date) 1
              EmptyString ltac:(lia)) as (k & rest & ->).
  change (String (Datetime.digit k)
            (rest ++ Datetime.strftime_m date ++ "_" ++ var ++ ".nc")
          ≠ "main.nc").
  intros H. injection H as H _. by apply digit_not_m in H.
Qed.

(** X6.  The metadata file and the data files never get in each other's
    way: no local data file is called [main.nc], for any date and variable,
    so the download loop leaves [main.nc] exactly as it found it, however
    the loop ends, and cell 8 leaves every data file as it found it. *)
Theorem metadata_and_data_apart
  (date : Datetime.date) (vars : list string) (w : World) :
  (∀ var, file_for date var ≠ Cell8.metadata_file)
  ∧ fs (fetch_loop date vars w).2 !! Cell8.metadata_file
    = fs w !! Cell8.metadata_file
  ∧ ∀ var, fs (Cell8.cell8 date w).2 !! file_for date var
           = fs w !! file_for date var.
Proof.
  split; [intros var; apply file_for_not_metadata|]. split.
  - destruct (fetch_loop date vars w) as [r w'] eqn:E.
    destruct (loop_frame date vars w w' r E) as (_ & _ & Hf & _).
    apply Hf. intros v _ Heq. symmetry in Heq.
    by apply file_for_not_metadata in Heq.
  - intros var. unfold Cell8.cell8, Boto3.download_file.
    destruct (objects w !! (era5_bucket, Cell8.metadata_key date)); [|done].
    cbn. apply lookup_insert_ne. intros Heq. symmetry in Heq.
    by apply file_for_not_metadata in Heq.
Qed.

(** * More on the bounding box *)

Lemma cell15_inv (ds ds' : Xarray.Dataset) :
  Cell15.cell15 ds = Py.Ok ds' →
  ∃ ilo ihi jlo jhi,
    Pandas.slice_indexer (Xarray.lat ds) 50 30 = Py.Ok (ilo, ihi)
    ∧ Pandas.slice_indexer (Xarray.lon ds) (360 - 140) (360 - 105)
      = Py.Ok (jlo, jhi)
    ∧ ds' = Xarray.mkDataset (Xarray.time0 ds)
              (Pandas.py_slice ilo ihi (Xarray.lat ds))
              (Pandas.py_slice jlo jhi (Xarray.lon ds))
              (Xarray.window ilo jlo <$> Xarray.data_vars ds).
Proof.
  unfold Cell15.cell15, Xarray.sel_slices. intros H.
  destruct (Pandas.slice_indexer (Xarray.lat ds) 50 30)
    as [[ilo ihi]|e]; [|discriminate].
  destruct (Pandas.slice_indexer (Xarray.lon ds) (360 - 140) (360 - 105))
    as [[jlo jhi]|e]; [|discriminate].
  injection H as <-. by exists ilo, ihi, jlo, jhi.
Qed.



Lemma count_all (f : Q → bool) (l : list Q) :
  (∀ x, x ∈ l → f x = true) → Pandas.count f l = length l.
Proof.
  induction l as [|x l IH]; intros H; cbn; [done|].
  rewrite (H x) by left. rewrite IH; [done|].
  intros y Hy. apply H. by right.
Qed.

Lemma slice_descending_all (idx : list Q) (start stop : Q) :
  descending idx → Forall (inside stop start) idx →
  Pandas.slice_indexer idx start stop = Py.Ok (0, length idx).
Proof.
  intros Hd Hall. rewrite Forall_forall in Hall.
  unfold Pandas.slice_indexer.
  rewrite (bound_descending_left idx start Hd),
          (bound_descending_right idx stop Hd).
  f_equal. f_equal.
  - apply count_zero. intros x Hx. apply Qltb_ge. by apply Hall.
  - apply count_all. intros x Hx. apply Qle_bool_iff. by apply Hall.
Qed.

Lemma slice_ascending_all (idx : list Q) (start stop : Q) :
  ascending idx → Forall (inside start stop) idx →
  Pandas.slice_indexer idx start stop = Py.Ok (0, length idx).
Proof.
  intros Hd Hall. rewrite Forall_forall in Hall.
  unfold Pandas.slice_indexer.
  rewrite !(bound_ascending idx _ _ Hd). cbn [Pandas.searchsorted].
  f_equal. f_equal.
  - apply count_zero. intros x Hx. apply Qltb_ge. by apply Hall.
  - apply count_all. intros x Hx. apply Qle_bool_iff. by apply Hall.
Qed.

Lemma py_slice_all {A} (l : list A) : Pandas.py_slice 0 (length l) l = l.
Proof.
  unfold Pandas.py_slice. rewrite Nat.sub_0_r. cbn [drop].
  by apply take_ge.
Qed.

(** X8.  Rerunning cell 15 on the dataset it has produced is harmless: when
    the kept latitudes are still descending and the kept longitudes still
    ascending, the second selection returns the very same dataset. *)
Theorem rerun_selection_harmless (ds ds' : Xarray.Dataset) :
  descending (Xarray.lat ds) →
  ascending (Xarray.lon ds) →
  Cell15.cell15 ds = Py.Ok ds' →
  descending (Xarray.lat ds') →
  ascending (Xarray.lon ds') →
  Cell15.cell15 ds' = Py.Ok ds'.
Proof.
  intros Hlat Hlon Hrun Hlat' Hlon'.
  destruct (cell15_inv ds ds' Hrun) as (ilo & ihi & jlo & jhi & Hi & Hj & ->).
  cbn in Hlat', Hlon'.
  destruct (slice_descending (Xarray.lat ds) 50 30 Hlat)
    as (ilo' & ihi' & Hi' & Ki).
  destruct (slice_ascending (Xarray.lon ds) (360 - 140) (360 - 105) Hlon)
    as (jlo' & jhi' & Hj' & Kj).
  rewrite Hi in Hi'. injection Hi' as <- <-.
  rewrite Hj in Hj'. injection Hj' as <- <-.
  pose proof (kept_all _ _ _ _ Ki) as Alat.
  pose proof (kept_all _ _ _ _ Kj) as Alon.
  unfold Cell15.cell15, Xarray.sel_slices. cbn.
  rewrite (slice_descending_all _ 50 30 Hlat' Alat).
  rewrite (slice_ascending_all _ _ _ Hlon' Alon).
  rewrite !py_slice_all.
  rewrite <- map_fmap_compose.
  reflexivity.
Qed.

Lemma rerun_selection_harmless_witness :
  Cell15.cell15 example_boxed = Py.Ok example_boxed.
Proof.
  apply (rerun_selection_harmless example_ds example_boxed); reflexivity.
Defined.




(** * More on the unit conversion *)

Lemma cell17_no_t2m (ds : Xarray.Dataset) (pv : Xarray.Var) :
  Xarray.data_vars ds !! Cell17.msl = Some pv →
  Xarray.data_vars ds !! Cell17.t2m = None →
  Cell17.cell17 ds
  = (Py.Raise (Py.AttributeError Cell17.t2m), half_converted ds pv).
Proof.
  intros Hp Ht.
  unfold Cell17.cell17, Py.bind, Xarray.getattr, Xarray.setitem,
    Xarray.set_attr, Py.modify; cbn.
  rewrite Hp; cbn.
  rewrite lookup_insert_eq; cbn.
  rewrite insert_insert_eq.
  rewrite lookup_insert_ne by exact names_differ.
  rewrite Ht. unfold half_converted, hPa_var. by rewrite insert_empty.
Qed.



(** X11.  However it ends, the conversion cell touches nothing but the two
    variables it names: the coordinates, the set of variable names, and the
    entries and attributes of every other variable are as before. *)
Theorem conversion_touches_two_variables
  (ds ds' : Xarray.Dataset) (r : Py.outcome unit) :
  Cell17.cell17 ds = (r, ds') →
  Xarray.time0 ds' = Xarray.time0 ds
  ∧ Xarray.lat ds' = Xarray.lat ds
  ∧ Xarray.lon ds' = Xarray.lon ds
  ∧ dom (Xarray.data_vars ds') = dom (Xarray.data_vars ds)
  ∧ ∀ name, name ≠ Cell17.msl → name ≠ Cell17.t2m →
            Xarray.data_vars ds' !! name = Xarray.data_vars ds !! name.
Proof.
  intros Hrun.
  destruct (Xarray.data_vars ds !! Cell17.msl) as [pv|] eqn:Hp.
  - destruct (Xarray.data_vars ds !! Cell17.t2m) as [tv|] eqn:Ht.
    + rewrite (cell17_run ds pv tv Hp Ht) in Hrun. injection Hrun as <- <-.
      cbn. do 3 (split; [done|]). split.
      * rewrite dom_insert_lookup_L.
        -- apply dom_insert_lookup_L. by eexists.
        -- rewrite lookup_insert_ne by exact names_differ. by eexists.
      * intros name H1 H2. by rewrite !lookup_insert_ne.
    + rewrite (cell17_no_t2m ds pv Hp Ht) in Hrun. injection Hrun as <- <-.
      cbn. do 3 (split; [done|]). split.
      * apply dom_insert_lookup_L. by eexists.
      * intros name H1 H2. by rewrite lookup_insert_ne.
  - rewrite (cell17_no_msl ds Hp) in Hrun. injection Hrun as <- <-.
    by repeat split.
Qed.

Lemma conversion_touches_two_variables_witness :
  Xarray.lat (Cell17.cell17 example_ds).2 = Xarray.lat example_ds
  ∧ dom (Xarray.data_vars (Cell17.cell17 example_ds).2)
    = dom (Xarray.data_vars example_ds).
Proof.
  destruct (conversion_touches_two_variables example_ds
              (Cell17.cell17 example_ds).2 (Cell17.cell17 example_ds).1)
    as (_ & Hlat & _ & Hdom & _).
  - apply surjective_pairing.
  - by split.
Defined.

(** X12.  Subsetting and converting commute: on a dataset that has the two
    variables and on which the selection of cell 15 succeeds, converting the
    selected dataset (the notebook's order) and selecting from the
    converted dataset give the same dataset. *)
Theorem subsetting_and_conversion_commute
  (ds boxed : Xarray.Dataset) (pv tv : Xarray.Var) :
  Xarray.data_vars ds !! Cell17.msl = Some pv →
  Xarray.data_vars ds !! Cell17.t2m = Some tv →
  Cell15.cell15 ds = Py.Ok boxed →
  ∃ conv both,
    Cell17.cell17 ds = (Py.Ok tt, conv)
    ∧ Cell17.cell17 boxed = (Py.Ok tt, both)
    ∧ Cell15.cell15 conv = Py.Ok both.
Proof.
  intros Hp Ht Hbox.
  destruct (cell15_inv ds boxed Hbox) as (ilo & ihi & jlo & jhi & Hi & Hj & ->).
  exists (converted ds pv tv). eexists.
  split; [by apply cell17_run|]. split.
  - apply cell17_run with (pv := Xarray.window ilo jlo pv)
                          (tv := Xarray.window ilo jlo tv);
      cbn; rewrite lookup_fmap; [by rewrite Hp | by rewrite Ht].
  - unfold Cell15.cell15, Xarray.sel_slices. cbn.
    change (360 - 140)%Q with (220 # 1)%Q in *.
    change (360 - 105)%Q with (255 # 1)%Q in *.
    rewrite Hi, Hj. unfold converted. cbn.
    by rewrite !fmap_insert.
Qed.

Lemma subsetting_and_conversion_commute_witness :
  ∃ conv both,
    Cell17.cell17 example_ds = (Py.Ok tt, conv)
    ∧ Cell17.cell17 example_boxed = (Py.Ok tt, both)
    ∧ Cell15.cell15 conv = Py.Ok both.
Proof.
  exact (subsetting_and_conversion_commute example_ds example_boxed
           example_msl example_t2m eq_refl eq_refl eq_refl).
Defined.

(** * Requests outside the grid *)






Example honolulu_at_the_corner :
  match Cell33.select example_air_temp (2021640 # 10000) (2129 # 100) with
  | Py.Ok pt => Xarray.pt_lon pt = (879 # 4)%Q ∧ Xarray.pt_lat pt = (119 # 4)%Q
  | Py.Raise _ => False
  end.
Proof. vm_compute. by split. Qed.

(** * Which files cell 12 opens *)

Example files_in_crowded_world :
  Cell12.files date_2017_01 crowded_world
  = Some {[ "201701_air_temperature_at_2_metres.nc";
            "201701_precipitation_amount_1hour_Accumulation.nc" ]}.
Proof. vm_compute. reflexivity. Qed.

Lemma digit_plain (k : nat) :
  Glob.magic (Datetime.digit k) = false
  ∧ Ascii.eqb (Datetime.digit k) "." = false.
Proof.
  unfold Datetime.digit.
  pose proof (Nat.mod_upper_bound k 10 ltac:(lia)) as Hr.
  revert Hr. generalize (k `mod` 10). intros r Hr.
  do 10 (destruct r as [|r]; [by split|]). lia.
Qed.

Lemma digits_plain (fuel n width : nat) (acc : string) :
  Glob.has_magic acc = false →
  Glob.has_magic (Datetime.digits fuel n width acc) = false.
Proof.
  revert n width acc. induction fuel as [|fuel IH]; intros n width acc Hacc;
    [done|].
  cbn [Datetime.digits].
  assert (Glob.has_magic (String (Datetime.digit n) acc) = false) as Hacc'.
  { cbn [Glob.has_magic]. destruct (digit_plain n) as [-> _]. done. }
  destruct ((n <? 10) && (width <=? 1)); [done|]. by apply IH.
Qed.

Lemma has_magic_app (s t : string) :
  Glob.has_magic (s ++ t) = Glob.has_magic s || Glob.has_magic t.
Proof.
  induction s as [|c s IH]; [done|].
  change (Glob.has_magic (String c (s ++ t))
          = Glob.has_magic (String c s) || Glob.has_magic t).
  cbn [Glob.has_magic]. rewrite IH. by rewrite orb_assoc.
Qed.

Lemma plain_no_class (s : string) :
  Glob.has_magic s = false → Glob.has_class s = false.
Proof.
  induction s as [|c s IH]; [done|]. cbn [Glob.has_magic Glob.has_class].
  intros H. apply orb_false_iff in H as [Hc Hs].
  rewrite (IH Hs). unfold Glob.magic in Hc.
  apply orb_false_iff in Hc as [_ ->]. done.
Qed.

Lemma has_class_app (s t : string) :
  Glob.has_class (s ++ t) = Glob.has_class s || Glob.has_class t.
Proof.
  induction s as [|c s IH]; [done|].
  change (Glob.has_class (String c (s ++ t))
          = Glob.has_class (String c s) || Glob.has_class t).
  cbn [Glob.has_class]. rewrite IH. by rewrite orb_assoc.
Qed.

Lemma fnmatch_nil (n : string) : Glob.fnmatch "" n = true ↔ n = "".
Proof. destruct n; cbn; split; congruence. Qed.

Lemma fnmatch_plain_char (c : ascii) (p n : string) :
  Glob.magic c = false →
  Glob.fnmatch (String c p) n
  = match n with
    | EmptyString => false
    | String d n' => Ascii.eqb c d && Glob.fnmatch p n'
    end.
Proof.
  unfold Glob.magic. intros H.
  apply orb_false_iff in H as [H _]. apply orb_false_iff in H as [H1 H2].
  cbn [Glob.fnmatch]. rewrite H1. destruct n as [|d n']; [done|].
  by rewrite H2.
Qed.

Lemma fnmatch_literal (lit p n : string) :
  Glob.has_magic lit = false →
  Glob.fnmatch (lit ++ p) n = true
  ↔ ∃ n', n = lit ++ n' ∧ Glob.fnmatch p n' = true.
Proof.
  revert n. induction lit as [|c lit IH]; intros n Hlit.
  - change ("" ++ p) with p. split; [intros H; by exists n|].
    intros (n' & -> & H). exact H.
  - cbn [Glob.has_magic] in Hlit. apply orb_false_iff in Hlit as [Hc Hlit].
    change (String c lit ++ p) with (String c (lit ++ p)).
    rewrite (fnmatch_plain_char c _ n Hc).
    destruct n as [|d n].
    + split; [discriminate|]. intros (n' & E & _). discriminate.
    + rewrite andb_true_iff, (IH n Hlit). split.
      * intros [Hcd (n' & -> & H)]. apply Ascii.eqb_eq in Hcd as ->.
        by exists n'.
      * intros (n' & E & H).
        change (String c lit ++ n') with (String c (lit ++ n')) in E.
        injection E as -> ->. split; [apply Ascii.eqb_refl | by exists n'].
Qed.

Lemma fnmatch_star_step (p n : string) :
  Glob.fnmatch (String "*" p) n
  = Glob.fnmatch p n
    || match n with
       | EmptyString => false
       | String _ n' => Glob.fnmatch (String "*" p) n'
       end.
Proof. by destruct n. Qed.

Lemma fnmatch_star (p n : string) :
  Glob.fnmatch (String "*" p) n = true
  ↔ ∃ a b, n = a ++ b ∧ Glob.fnmatch p b = true.
Proof.
  induction n as [|d n IH]; rewrite fnmatch_star_step, orb_true_iff.
  - split.
    + intros [H|H]; [|discriminate]. by exists "", "".
    + intros (a & b & E & H). left.
      destruct a; [|discriminate]. change ("" ++ b) with b in E. by subst.
  - rewrite IH. split.
    + intros [H|(a & b & -> & H)].
      * by exists "", (String d n).
      * by exists (String d a), b.
    + intros (a & b & E & H). destruct a as [|c a].
      * left. change ("" ++ b) with b in E. by subst.
      * right. change (String c a ++ b) with (String c (a ++ b)) in E.
        injection E as -> ->. by exists a, b.
Qed.

Lemma year_starts_with_digit (date : Datetime.date) (rest : string) :
  ∃ k tail, Datetime.strftime_Y date ++ rest = String (Datetime.digit k) tail.
Proof.
  unfold Datetime.strftime_Y, Datetime.decimal.
  destruct (digits_head (S (Datetime.year date) + 1) (Datetime.year date) 1
              EmptyString ltac:(lia)) as (k & tail & ->).
  by exists k, (tail ++ rest).
Qed.

Lemma year_month_plain (date : Datetime.date) :
  Glob.has_magic (Datetime.strftime_Y date ++ Datetime.strftime_m date) = false.
Proof.
  rewrite has_magic_app. unfold Datetime.strftime_Y, Datetime.strftime_m,
    Datetime.decimal.
  by rewrite !digits_plain.
Qed.

Lemma append_assoc (a b c : string) : (a ++ b) ++ c = a ++ b ++ c.
Proof.
  induction a as [|x a IH]; [done|].
  change (String x ((a ++ b) ++ c) = String x (a ++ b ++ c)). by rewrite IH.
Qed.

(** The files cell 12 opens are the files of the working directory whose
    name is the year, the month, anything, and [.nc]. *)
Lemma files_spec (date : Datetime.date) (w : World) :
  ∃ opened,
    Cell12.files date w = Some opened
    ∧ ∀ name,
        name ∈ opened
        ↔ is_Some (fs w !! name)
          ∧ ∃ mid, name = Datetime.strftime_Y date ++ Datetime.strftime_m date
                            ++ mid ++ ".nc".
Proof.
  set (Y := Datetime.strftime_Y date). set (M := Datetime.strftime_m date).
  assert (Cell12.filename_pattern Y M = Py.Ok ((Y ++ M) ++ "*.nc")) as Hpat.
  { rewrite append_assoc. reflexivity. }
  pose proof (year_month_plain date) as Hplain. fold Y M in Hplain.
  unfold Cell12.files. fold Y M. rewrite Hpat. unfold Glob.glob.
  rewrite has_class_app, (plain_no_class _ Hplain).
  rewrite has_magic_app, Hplain.
  cbn [orb negb Glob.has_class Glob.has_magic Glob.magic Ascii.eqb
       Bool.eqb].
  eexists. split; [reflexivity|].
  intros name. rewrite elem_of_filter, elem_of_dom.
  assert (Glob.fnmatch ((Y ++ M) ++ "*.nc") name = true
          ↔ ∃ mid, name = Y ++ M ++ mid ++ ".nc") as Hmatch.
  { rewrite (fnmatch_literal _ _ _ Hplain). split.
    - intros (n' & -> & H). apply fnmatch_star in H as (a & b & -> & H).
      apply (fnmatch_literal ".nc" "" b eq_refl) in H as (e & -> & He).
      apply fnmatch_nil in He as ->.
      exists a. by rewrite append_assoc.
    - intros (mid & ->). exists (mid ++ ".nc").
      split; [by rewrite append_assoc|].
      apply fnmatch_star. exists mid, ".nc". split; [done|].
      apply (fnmatch_literal ".nc" "" ".nc" eq_refl). by exists "". }
  split.
  - intros [Hp Hin]. split; [done|].
    apply andb_true_iff in Hp as [_ Hp]. by apply Hmatch.
  - intros [Hin Hmid]. split; [|done].
    apply andb_true_iff. split; [|by apply Hmatch].
    destruct Hmid as (mid & ->).
    destruct (year_starts_with_digit date (M ++ mid ++ ".nc"))
      as (k & tail & E).
    fold Y in E. rewrite E. cbn [Glob.ishidden].
    destruct (digit_plain k) as [_ ->].
    by rewrite orb_true_r.
Qed.

(** X14.  Cell 12 opens exactly the files of the working directory named
    year, month, anything, [.nc].  So it opens the file of every variable
    that is there for that month, it also opens whatever else carries the
    month's prefix (a file left by an earlier choice of variables), and it
    never opens [main.nc]. *)
Theorem cell12_opens_the_months_files (date : Datetime.date) (w : World) :
  ∃ opened,
    Cell12.files date w = Some opened
    ∧ (∀ name,
         name ∈ opened
         ↔ is_Some (fs w !! name)
           ∧ ∃ mid, name = Datetime.strftime_Y date ++ Datetime.strftime_m date
                             ++ mid ++ ".nc")
    ∧ (∀ var, file_for date var ∈ opened ↔ is_Some (fs w !! file_for date var))
    ∧ Cell8.metadata_file ∉ opened.
Proof.
  destruct (files_spec date w) as (opened & Hf & Hspec).
  exists opened. split; [done|]. split; [done|]. split.
  - intros var. rewrite Hspec. split; [by intros [? _]|].
    intros H. split; [done|]. by exists ("_" ++ var).
  - intros Hin. apply Hspec in Hin as [_ (mid & E)].
    destruct (year_starts_with_digit date
                (Datetime.strftime_m date ++ mid ++ ".nc")) as (k & tail & E').
    rewrite E' in E. injection E as E _. symmetry in E.
    by apply digit_not_m in E.
Qed.

(** X15.  What the download loop fetched is what cell 12 opens: after a
    completed loop, the local file of every variable of the list is among
    the files opened for that month. *)
Theorem cell12_opens_what_was_fetched
  (date : Datetime.date) (vars : list string) (w w' : World) :
  fetch_loop date vars w = (Py.Ok tt, w') →
  ∃ opened,
    Cell12.files date w' = Some opened
    ∧ ∀ v, v ∈ vars → file_for date v ∈ opened.
Proof.
  intros Hrun.
  destruct (files_spec date w') as (opened & Hf & Hspec).
  exists opened. split; [done|].
  intros v Hv. apply Hspec. split.
  - by apply (loop_leaves_files date vars w w' Hrun).
  - by exists ("_" ++ v).
Qed.

Lemma cell12_opens_what_was_fetched_witness :
  ∃ opened,
    Cell12.files date_2017_01
      (fetch_loop date_2017_01 Cell10.var_list fresh_world).2
    = Some opened
    ∧ "201701_air_pressure_at_mean_sea_level.nc" ∈ opened.
Proof.
  destruct (cell12_opens_what_was_fetched date_2017_01 Cell10.var_list
              fresh_world
              (fetch_loop date_2017_01 Cell10.var_list fresh_world).2
              ltac:(vm_compute; reflexivity))
    as (opened & Hf & Hin).
  exists opened. split; [exact Hf|].
  apply (Hin Cell10.var2). right. left.
Defined.

(** X16.  A dataset with a single latitude comes out of cell 15 with no
    latitude at all, whether or not that latitude lies in [30, 50]: a
    one-label coordinate is searched as an ascending one, against which the
    bounds (50, 30) run backwards.  No error is raised. *)
Theorem single_latitude_selects_nothing (ds : Xarray.Dataset) (y : Q) :
  Xarray.lat ds = [y] →
  is_Some (Pandas.monotonic (Xarray.lon ds)) →
  ∃ ds', Cell15.cell15 ds = Py.Ok ds' ∧ Xarray.lat ds' = [].
Proof.
  intros Hlat [dlon Hlon].
  assert (Pandas.monotonic (Xarray.lat ds) = Some Pandas.Increasing) as Hinc.
  { by rewrite Hlat. }
  destruct (against_nothing_inside (Xarray.lat ds) Pandas.Increasing 50 30 Hinc)
    as (ilo & ihi & Hi & Hempty).
  { cbn. reflexivity. }
  destruct (monotonic_slices (Xarray.lon ds) dlon (360 - 140) (360 - 105) Hlon)
    as (jlo & jhi & Hj).
  eexists. split.
  - unfold Cell15.cell15. by apply sel_slices_ok.
  - exact Hempty.
Qed.

Lemma single_latitude_selects_nothing_witness :
  ∃ ds', Cell15.cell15 one_latitude_ds = Py.Ok ds' ∧ Xarray.lat ds' = [].
Proof.
  apply (single_latitude_selects_nothing one_latitude_ds 40).
  - reflexivity.
  - by eexists.
Defined.
